(** * gohfinder: hostnames of a CIDR block or an ASN (main.go)

    A shallow embedding of [main.go]: the two scraping functions
    [searchASN] and [searchCIDR], the aggregation loops of the cli
    [Action], and [printResults].

    - Go's [map[string]map[string]struct{}] is a [gmap string (gset string)];
    - the order in which [range] walks a map is not fixed by Go: it is an
      oracle [MapOrder], any enumeration of the map's entries;
    - the network, the HTML parser and the regexp engine are libraries the
      program calls: they are the fields of the class [Libraries];
    - what the process does is a trace of events (a GET sent, a line
      written to standard output) and an outcome: a value, or the message
      of [log.Fatal] / [log.Fatalf], after which the process exits with
      status 1. *)

From stdpp Require Import gmap strings list fin_maps.
From Stdlib Require Import ZArith Ascii.

Set Warnings "-clear-no-such-hyp".

Open Scope string_scope.
Open Scope Z_scope.
Open Scope list_scope.
Open Scope stdpp_scope.

(** ** Go's [strings] package, on byte strings *)

Module strings.

(** [strings.Join(elems, sep)] *)
Fixpoint Join (elems : list string) (sep : string) : string :=
  match elems with
  | [] => ""
  | [a] => a
  | a :: rest => a +:+ sep +:+ Join rest sep
  end.

(** [strings.Split(s, sep)] for a non-empty [sep] (the program only splits
    on [","]): [skip] counts the bytes of a separator still to be passed. *)
Fixpoint Split_from (sep s : string) (skip : nat) : list string :=
  match s with
  | "" => [""]
  | String c s' =>
      match skip with
      | S k => Split_from sep s' k
      | O =>
          if String.prefix sep s
          then "" :: Split_from sep s' (String.length sep - 1)
          else match Split_from sep s' 0 with
               | piece :: pieces => String c piece :: pieces
               | [] => [String c ""]
               end
      end
  end.

Definition Split (s sep : string) : list string := Split_from sep s 0.

(** [strings.Replace(s, old, new, n)] for a non-empty [old] (the program
    only replaces ["/"] and two URL prefixes): the first [n] occurrences
    from the left, without overlap; all of them when [n < 0]. *)
Fixpoint Replace_from (old new s : string) (skip : nat) (n : Z) : string :=
  match s with
  | "" => ""
  | String c s' =>
      match skip with
      | S k => Replace_from old new s' k n
      | O =>
          if negb (n =? 0) && String.prefix old s
          then new +:+ Replace_from old new s' (String.length old - 1) (n - 1)
          else String c (Replace_from old new s' 0 n)
      end
  end.

Definition Replace (s old new : string) (n : Z) : string :=
  Replace_from old new s 0 n.

(** [strings.Contains(s, substr)] *)
Fixpoint Contains (s substr : string) : bool :=
  String.prefix substr s ||
  match s with
  | "" => false
  | String _ s' => Contains s' substr
  end.

(** The bytes of [s] after the first [n]. *)
Fixpoint drop_bytes (n : nat) (s : string) : string :=
  match n, s with
  | S k, String _ s' => drop_bytes k s'
  | _, _ => s
  end.

(** [strings.Cut(s, sep)]: the text before and after the first [sep]. *)
Fixpoint Cut (s sep : string) : option (string * string) :=
  if String.prefix sep s then Some ("", drop_bytes (String.length sep) s)
  else match s with
       | "" => None
       | String c s' =>
           match Cut s' sep with
           | Some (before, after) => Some (String c before, after)
           | None => None
           end
       end.

(** Each byte [c] of [s] changed into [f c]: what [Replace] with two
    one-byte strings amounts to. *)
Fixpoint map_bytes (f : ascii → ascii) (s : string) : string :=
  match s with
  | "" => ""
  | String c s' => String (f c) (map_bytes f s')
  end.

Definition slash_to_dash (c : ascii) : ascii :=
  if bool_decide (c = "/"%char) then "-"%char else c.

End strings.

(** ** The process: events and outcomes *)

Inductive event : Type :=
| EvGet (url : string)        (* client.Do(req): one GET sent *)
| EvPrint (line : string).    (* one line on standard output *)

Inductive outcome (A : Type) : Type :=
| Done (a : A)
| Fatal (msg : string).       (* log.Fatal: message on stderr, os.Exit(1) *)
Arguments Done {A} a.
Arguments Fatal {A} msg.

Definition exit_status {A} (o : outcome A) : Z :=
  match o with Done _ => 0 | Fatal _ => 1 end.

Definition M (A : Type) : Type := list event → outcome A * list event.

Definition ret {A} (a : A) : M A := λ tr, (Done a, tr).

Definition bind {A B} (m : M A) (k : A → M B) : M B :=
  λ tr, match m tr with
        | (Done a, tr') => k a tr'
        | (Fatal msg, tr') => (Fatal msg, tr')
        end.

Notation "x <- m ;; k" := (bind m (λ x, k))
  (at level 100, m at next level, right associativity, only parsing).
Notation "m ;;; k" := (bind m (λ _, k))
  (at level 100, right associativity, only parsing).

Definition Fatalf {A} (msg : string) : M A := λ tr, (Fatal msg, tr).

Definition Println (line : string) : M unit := λ tr, (Done tt, tr ++ [EvPrint line]).

(** [for _, x := range l { body x }] over a slice *)
Fixpoint for_each {A} (l : list A) (body : A → M unit) : M unit :=
  match l with
  | [] => ret tt
  | x :: rest => body x ;;; for_each rest body
  end.

(** The lines written to standard output, and the GETs sent, in a trace. *)
Definition stdout (tr : list event) : list string :=
  omap (λ e, match e with EvPrint l => Some l | EvGet _ => None end) tr.

Definition requests (tr : list event) : list string :=
  omap (λ e, match e with EvGet u => Some u | EvPrint _ => None end) tr.

(** ** The order of [range] over a map *)

Abbreviation HostnameIndex := (gmap string (gset string)).

Record MapOrder : Type := {
  range_idx : HostnameIndex → list (string * gset string);
  range_set : gset string → list string;
  range_idx_perm : ∀ m, range_idx m ≡ₚ map_to_list m;
  range_set_perm : ∀ s, range_set s ≡ₚ elements s
}.

(** One such order: the one of stdpp's [map_to_list] and [elements]. *)
Definition canonical_order : MapOrder :=
  {| range_idx := map_to_list;
     range_set := elements;
     range_idx_perm := λ m, reflexivity (map_to_list m);
     range_set_perm := λ s, reflexivity (elements s) |}.

(** Another one: the same lists, from the last element to the first. *)
Definition reversed_order : MapOrder :=
  {| range_idx := λ m, reverse (map_to_list m);
     range_set := λ s, reverse (elements s);
     range_idx_perm := λ m, reverse_Permutation (map_to_list m);
     range_set_perm := λ s, reverse_Permutation (elements s) |}.

(** ** The libraries the program calls

    [NewRequest_err url] is the error of [http.NewRequest("GET", url, nil)],
    if any; [client_Do tr url] is what [client.Do] answers to a GET of [url]
    after the events [tr]: [None] for a transport error, else the status
    code and the body; [NewDocumentFromReader] is goquery's parser;
    [prefix_links doc] lists, for each row that
    ["#table_prefixes4 tbody tr"] selects, the text of
    [s.Find("td").First().Find("a")]; [dns_anchors doc] lists, for each
    anchor that ["a[href^='https://www.robtex.com/dns-lookup/']"] selects,
    its [href] and the [href] (or [""]) of
    [s.Parent().Parent().Find("a[href^='https://www.robtex.com/ip-lookup/']")];
    [regexp_Compile] gives the compiled pattern or the error's text. *)
Class Libraries : Type := {
  Doc : Type;
  Regexp : Type;
  NewRequest_err : string → option string;
  client_Do : list event → string → option (Z * string);
  NewDocumentFromReader : string → option Doc;
  prefix_links : Doc → list string;
  dns_anchors : Doc → list (string * string);
  TrimSpace : string → string;
  regexp_Compile : string → Regexp + string;
  MatchString : Regexp → string → bool
}.

(** ** The program *)

Section Program.
Context `{L : Libraries} (ord : MapOrder).

Definition StatusOK : Z := 200.

(** [resp, err := client.Do(req)] *)
Definition Do (url : string) : M (option (Z * string)) :=
  λ tr, (Done (client_Do tr url), tr ++ [EvGet url]).

(** [if _, exists := m[k]; !exists { m[k] = make(map[string]struct{}) }] *)
Definition ensure (m : HostnameIndex) (k : string) : HostnameIndex :=
  match m !! k with
  | Some _ => m
  | None => <[k := ∅]> m
  end.

(** [m[k][x] = struct{}{}], with [m[k]] present *)
Definition put (m : HostnameIndex) (k x : string) : HostnameIndex :=
  alter (λ s, {[x]} ∪ s) k m.

(** The callback of [searchCIDR] on one anchor. *)
Definition add_anchor (hostnames : HostnameIndex) (a : string * string) : HostnameIndex :=
  let h := strings.Replace (fst a) "https://www.robtex.com/dns-lookup/" "" 1 in
  let ip := strings.Replace (snd a) "https://www.robtex.com/ip-lookup/" "" 1 in
  put (ensure hostnames h) h ip.

Definition robtexURL : string := "https://www.robtex.com/cidr/".

Definition searchCIDR (cidr : string) : M HostnameIndex :=
  let uri := strings.Replace cidr "/" "-" (-1) in
  match NewRequest_err (robtexURL +:+ uri) with
  | Some err => Fatalf ("Failed to create HTTP request: " +:+ err)
  | None =>
      resp <- Do (robtexURL +:+ uri) ;;
      match resp with
      | None => ret ∅
      | Some (status, body) =>
          if negb (status =? StatusOK) then ret ∅
          else match NewDocumentFromReader body with
               | None => ret ∅
               | Some doc => ret (foldl add_anchor ∅ (dns_anchors doc))
               end
      end
  end.

Definition bgpURL : string := "https://bgp.he.net/".

(** The rows of the prefix table: trimmed, the empty ones dropped. *)
Definition table_prefixes (doc : Doc) : list string :=
  filter (λ prefix, prefix ≠ "") (map TrimSpace (prefix_links doc)).

(** The loop of [searchASN] over [asnList]; [ranges] is the slice built so
    far. [continue] is the recursive call with [ranges] unchanged. *)
Fixpoint searchASN_loop (asnList : list string) (ranges : list string) : M (list string) :=
  match asnList with
  | [] => ret ranges
  | asn :: rest =>
      match NewRequest_err (bgpURL +:+ asn) with
      | Some err => Fatalf ("Failed to create HTTP request: " +:+ err)
      | None =>
          resp <- Do (bgpURL +:+ asn) ;;
          match resp with
          | None => searchASN_loop rest ranges
          | Some (status, body) =>
              if negb (status =? StatusOK) then searchASN_loop rest ranges
              else match NewDocumentFromReader body with
                   | None => searchASN_loop rest ranges
                   | Some doc =>
                       let ranges := ranges ++ table_prefixes doc in
                       for_each ranges Println ;;;
                       searchASN_loop rest ranges
                   end
          end
      end
  end.

Definition searchASN (asns : string) : M (list string) :=
  searchASN_loop (strings.Split asns ",") [].

(** The body of the aggregation loops of [Action] (lines 49-56, 66-73):
    one entry [k, v] of [res] added to [results]. *)
Definition merge_entry (results : HostnameIndex) (kv : string * gset string) : HostnameIndex :=
  foldl (λ results ip, put results (fst kv) ip) (ensure results (fst kv)) (range_set ord (snd kv)).

Definition merge_into (results res : HostnameIndex) : HostnameIndex :=
  foldl merge_entry results (range_idx ord res).

(** [for _, cidr := range cidrs { res := searchCIDR(cidr); ... }] *)
Fixpoint cidr_loop (cidrs : list string) (results : HostnameIndex) : M HostnameIndex :=
  match cidrs with
  | [] => ret results
  | cidr :: rest =>
      res <- searchCIDR cidr ;;
      cidr_loop rest (merge_into results res)
  end.

(** [for _, asn := range asns { ranges := searchASN(asn); for _, rangeCIDR := range ranges { ... } }] *)
Fixpoint asn_loop (asns : list string) (results : HostnameIndex) : M HostnameIndex :=
  match asns with
  | [] => ret results
  | asn :: rest =>
      ranges <- searchASN asn ;;
      results <- cidr_loop ranges results ;;
      asn_loop rest results
  end.

(** [filter == "" || re.MatchString(hostname)]; [re] is [nil] ([None])
    exactly when [filter] is empty. *)
Definition selected (filter : string) (re : option Regexp) (hostname : string) : bool :=
  bool_decide (filter = "") ||
  match re with Some r => MatchString r hostname | None => false end.

(** The first loop of the hosts branch: the index inverted. *)
Definition invert_entry (filter : string) (re : option Regexp)
    (hostsResult : HostnameIndex) (kv : string * gset string) : HostnameIndex :=
  if selected filter re (fst kv)
  then foldl (λ hostsResult ip, put (ensure hostsResult ip) ip (fst kv))
             hostsResult (range_set ord (snd kv))
  else hostsResult.

Definition invert (filter : string) (re : option Regexp) (results : HostnameIndex) : HostnameIndex :=
  foldl (invert_entry filter re) ∅ (range_idx ord results).

Definition hosts_line (kv : string * gset string) : string :=
  fst kv +:+ " " +:+ strings.Join (range_set ord (snd kv)) " ".

Definition default_line (kv : string * gset string) : string :=
  fst kv +:+ ": " +:+ strings.Join (range_set ord (snd kv)) " ".

(** The first step of [printResults] (lines 204-212): the pattern
    compiled, when there is one; [None] is the [nil] pointer. *)
Definition compile_filter (filter : string) : M (option Regexp) :=
  if bool_decide (filter = "") then ret None
  else match regexp_Compile filter with
       | inl re => ret (Some re)
       | inr err => Fatalf ("Invalid regex pattern: " +:+ err)
       end.

Definition printResults (results : HostnameIndex) (hosts fqdn : bool) (filter : string) : M unit :=
  re <- compile_filter filter ;;
  if hosts then
    for_each (range_idx ord (invert filter re results)) (λ kv, Println (hosts_line kv))
  else
    for_each (range_idx ord results) (λ kv,
      if selected filter re (fst kv)
      then if fqdn then Println (fst kv) else Println (default_line kv)
      else ret tt).

(** The flags of one invocation, as [c.String] and [c.Bool] read them. *)
Record Flags : Type := {
  flag_cidr : string;
  flag_asn : string;
  flag_hosts : bool;
  flag_fqdn : bool;
  flag_filter : string
}.

Definition invalid_parameters : string :=
  "Invalid parameters. Please provide either -c or -a".

(** The [Action] of the cli app: [None] is [return nil]. *)
Definition Action (c : Flags) : M (option string) :=
  if negb (bool_decide (flag_cidr c = "")) then
    results <- cidr_loop (strings.Split (flag_cidr c) ",") ∅ ;;
    printResults results (flag_hosts c) (flag_fqdn c) (flag_filter c) ;;;
    ret None
  else if negb (bool_decide (flag_asn c = "")) then
    results <- asn_loop (strings.Split (flag_asn c) ",") ∅ ;;
    printResults results (flag_hosts c) (flag_fqdn c) (flag_filter c) ;;;
    ret None
  else ret (Some invalid_parameters).

(** [err := app.Run(os.Args); if err != nil { log.Fatal(err) }] *)
Definition main (c : Flags) : M unit :=
  err <- Action c ;;
  match err with
  | Some msg => Fatalf msg
  | None => ret tt
  end.

End Program.

(** ** The notions of the statements *)

Section Report.
Context `{L : Libraries} (ord : MapOrder).

(** The filtered index: the entries whose hostname passes the filter. *)
Definition filtered (filter : string) (re : option Regexp) (results : HostnameIndex) : HostnameIndex :=
  base.filter (λ kv, selected filter re (fst kv) = true) results.

(** The rows [printResults] writes, before they are formatted: the key of
    each line and the list joined after it. In hosts mode the key is an IP
    and the list its hostnames; otherwise the key is a hostname and the
    list its IPs. *)
Definition rows (results : HostnameIndex) (hosts : bool) (filter : string)
    (re : option Regexp) : list (string * list string) :=
  if hosts
  then map (λ kv, (fst kv, range_set ord (snd kv))) (range_idx ord (invert ord filter re results))
  else map (λ kv, (fst kv, range_set ord (snd kv)))
           (List.filter (λ kv, selected filter re (fst kv)) (range_idx ord results)).

Definition format_row (hosts fqdn : bool) (row : string * list string) : string :=
  if hosts then fst row +:+ " " +:+ strings.Join (snd row) " "
  else if fqdn then fst row
  else fst row +:+ ": " +:+ strings.Join (snd row) " ".

(** The hostnames of the rows. *)
Definition rendered_hostnames (hosts : bool) (rws : list (string * list string)) : list string :=
  if hosts then List.concat (map snd rws) else map fst rws.

(** The aggregation loop of [Action] alone, over the partial indexes that
    the calls of [searchCIDR] returned. *)
Definition aggregate (partials : list HostnameIndex) : HostnameIndex :=
  foldl (merge_into ord) ∅ partials.

(** The union of two indexes, hostname by hostname: what merging amounts to. *)
Definition index_union (a b : HostnameIndex) : HostnameIndex :=
  union_with (λ s t, Some (s ∪ t)) a b.

(** [x] is in the set that [m] holds at [k]. *)
Definition member (m : HostnameIndex) (k x : string) : Prop :=
  ∃ s, m !! k = Some s ∧ x ∈ s.

(** A GET sent to the CIDR lookup service. *)
Definition robtex_get (e : event) : Prop := ∃ uri, e = EvGet (robtexURL +:+ uri).

(** A GET sent to the ASN lookup service. *)
Definition bgp_get (e : event) : Prop := ∃ asn, e = EvGet (bgpURL +:+ asn).

(** The messages of the two [log.Fatalf] of the program. *)
Definition library_failure (msg : string) : Prop :=
  ∃ err, msg = "Failed to create HTTP request: " +:+ err ∨
         msg = "Invalid regex pattern: " +:+ err.

(** The prefixes that the lookup of one ASN discovers after the events
    [tr]: those of the table of its page, none when the lookup fails. *)
Definition asn_prefixes (tr : list event) (asn : string) : list string :=
  match client_Do tr (bgpURL +:+ asn) with
  | Some (status, body) =>
      if status =? StatusOK
      then match NewDocumentFromReader body with
           | Some doc => table_prefixes doc
           | None => []
           end
      else []
  | None => []
  end.

(** The prefixes discovered along the loop of [Action] over [asns], in
    order: for each ASN that the loop reaches, those that its lookup
    discovers at that point of the run. *)
Fixpoint asn_loop_prefixes (asns : list string) (results : HostnameIndex)
    (tr : list event) : list string :=
  match asns with
  | [] => []
  | asn :: rest =>
      match searchASN asn tr with
      | (Done ranges, tr1) =>
          asn_prefixes tr asn ++
          match cidr_loop ord ranges results tr1 with
          | (Done results1, tr2) => asn_loop_prefixes rest results1 tr2
          | (Fatal _, _) => []
          end
      | (Fatal _, _) => []
      end
  end.

(** The prefixes that the ASN resolution of [--asn] discovers, told from
    the answers of the network alone: for each ASN in turn whose request
    is built, the prefixes on its page at that point of the run; the run
    then goes on with the lookups of these prefixes. Nothing is discovered
    past an ASN or a prefix whose request cannot be built. *)
Fixpoint discovered_prefixes (asns : list string) (results : HostnameIndex)
    (tr : list event) : list string :=
  match asns with
  | [] => []
  | asn :: rest =>
      match NewRequest_err (bgpURL +:+ asn) with
      | Some _ => []
      | None =>
          let found := asn_prefixes tr asn in
          found ++
          match cidr_loop ord found results
                  (tr ++ EvGet (bgpURL +:+ asn) :: map EvPrint found) with
          | (Done results1, tr2) => discovered_prefixes rest results1 tr2
          | (Fatal _, _) => []
          end
      end
  end.

(** No hostname of the index is without an IP. *)
Definition no_empty_set (m : HostnameIndex) : Prop :=
  ∀ h ips, m !! h = Some ips → ips ≠ ∅.

(** The indexes that [printResults] receives: its only caller is [Action],
    which hands it what one of the two aggregation loops built from the
    empty index (lines 45-58 and 61-76). *)
Definition handed_to_printResults (results : HostnameIndex) : Prop :=
  ∃ pieces tr tr1,
    cidr_loop ord pieces ∅ tr = (Done results, tr1) ∨
    asn_loop ord pieces ∅ tr = (Done results, tr1).

(** One lookup failed in one of the three soft ways: transport error,
    status other than 200, HTML that does not parse. *)
Definition lookup_failed (tr : list event) (url : string) : Prop :=
  client_Do tr url = None ∨
  ∃ status body, client_Do tr url = Some (status, body) ∧
                 (status ≠ StatusOK ∨ NewDocumentFromReader body = None).

End Report.

(** Standard output as the text it is: [fmt.Println] and the ["\n"] of the
    formats of [fmt.Printf] end each line written with a line feed. *)
Definition line_feed : string := String "010" "".

Definition stdout_text (tr : list event) : string :=
  foldr (λ line text, line +:+ line_feed +:+ text) "" (stdout tr).

(** The lines of a text: what stands before each line feed. *)
Definition text_lines (text : string) : list string :=
  removelast (strings.Split text line_feed).

(** Re-parsing a line of the default mode, as the specification words it:
    split on [": "], then split the rest on spaces. *)
Definition reparse_line (line : string) : option (string * gset string) :=
  match strings.Cut line ": " with
  | Some (hostname, ips) => Some (hostname, list_to_set (strings.Split ips " "))
  | None => None
  end.

Definition reparse_default (lines : list string) : option HostnameIndex :=
  list_to_map <$> mapM reparse_line lines.

(** [c.String("asn")] set to the empty string, the other flags kept. *)
Definition without_asn (c : Flags) : Flags :=
  {| flag_cidr := flag_cidr c; flag_asn := "";
     flag_hosts := flag_hosts c; flag_fqdn := flag_fqdn c;
     flag_filter := flag_filter c |}.

(** The URL that [searchCIDR] builds for a CIDR (lines 152-156). *)
Definition cidr_url (cidr : string) : string :=
  robtexURL +:+ strings.Replace cidr "/" "-" (-1).

(** The two prefixes that [searchCIDR] strips (lines 189-192). *)
Definition dns_lookup : string := "https://www.robtex.com/dns-lookup/".
Definition ip_lookup : string := "https://www.robtex.com/ip-lookup/".

(** ** A small world to run the program in *)

Module Example.

Definition is_ctl (c : ascii) : bool :=
  (nat_of_ascii c <? 32)%nat || (nat_of_ascii c =? 127)%nat.

Fixpoint has_ctl (s : string) : bool :=
  match s with
  | "" => false
  | String c s' => is_ctl c || has_ctl s'
  end.

(** ASCII white space only. *)
Definition is_space (c : ascii) : bool :=
  ((9 <=? nat_of_ascii c) && (nat_of_ascii c <=? 13))%nat || (nat_of_ascii c =? 32)%nat.

Fixpoint trim_left (s : string) : string :=
  match s with
  | String c s' => if is_space c then trim_left s' else s
  | "" => ""
  end.

Fixpoint trim_right (s : string) : string :=
  match s with
  | String c s' =>
      match trim_right s' with
      | "" => if is_space c then "" else String c ""
      | t => String c t
      end
  | "" => ""
  end.

(** A page, already reduced to what the two selectors find in it. *)
Record page : Type := {
  page_prefixes : list string;
  page_anchors : list (string * string)
}.

Definition as64500 : page :=
  {| page_prefixes := [" 1.2.3.0/24 "; "   "; "1.2.4.0/24"]; page_anchors := [] |}.

Definition as64501 : page :=
  {| page_prefixes := ["5.6.7.0/24"]; page_anchors := [] |}.

Definition cidr_1_2_3 : page :=
  {| page_prefixes := [];
     page_anchors :=
       [("https://www.robtex.com/dns-lookup/host1.example.com",
         "https://www.robtex.com/ip-lookup/1.2.3.4");
        ("https://www.robtex.com/dns-lookup/mail.example.com", "")] |}.

Definition cidr_1_2_4 : page :=
  {| page_prefixes := [];
     page_anchors :=
       [("https://www.robtex.com/dns-lookup/host2.example.com",
         "https://www.robtex.com/ip-lookup/1.2.3.5");
        ("https://www.robtex.com/dns-lookup/host1.example.com",
         "https://www.robtex.com/ip-lookup/1.2.3.9")] |}.

(** The bodies are names of pages; ["<garbage>"] does not parse. *)
Definition parse_body (body : string) : option page :=
  if bool_decide (body = "as64500") then Some as64500
  else if bool_decide (body = "as64501") then Some as64501
  else if bool_decide (body = "cidr_1_2_3") then Some cidr_1_2_3
  else if bool_decide (body = "cidr_1_2_4") then Some cidr_1_2_4
  else None.

Definition serve (url : string) : option (Z * string) :=
  if bool_decide (url = "https://bgp.he.net/AS64500") then Some (200, "as64500")
  else if bool_decide (url = "https://bgp.he.net/AS64501") then Some (200, "as64501")
  else if bool_decide (url = "https://bgp.he.net/AS64502") then Some (500, "")
  else if bool_decide (url = "https://bgp.he.net/AS64503") then Some (200, "<garbage>")
  else if bool_decide (url = "https://www.robtex.com/cidr/1.2.3.0-24") then Some (200, "cidr_1_2_3")
  else if bool_decide (url = "https://www.robtex.com/cidr/1.2.4.0-24") then Some (200, "cidr_1_2_4")
  else if bool_decide (url = "https://www.robtex.com/cidr/5.6.7.0-24") then Some (404, "")
  else None.

(** A pattern is a literal here; ["("] does not compile. *)
Definition compile (pattern : string) : string + string :=
  if bool_decide (pattern = "(")
  then inr "error parsing regexp: missing closing ): `(`"
  else inl pattern.

(** As [net/url] does, [http.NewRequest] refuses a URL that holds an
    ASCII control byte (the text of the error is shortened here). *)
#[local] Instance world : Libraries := {|
  Doc := page;
  Regexp := string;
  NewRequest_err := λ url,
    if has_ctl url then Some "net/url: invalid control character in URL" else None;
  client_Do := λ _ url, serve url;
  NewDocumentFromReader := parse_body;
  prefix_links := page_prefixes;
  dns_anchors := page_anchors;
  TrimSpace := λ s, trim_right (trim_left s);
  regexp_Compile := compile;
  MatchString := λ re hostname, strings.Contains hostname re
|}.

Definition tab : string := String (ascii_of_nat 9) "".

Definition run (c : Flags) : outcome unit * list event := main canonical_order c [].

(** [gohfinder -c 1.2.3.0/24 -a AS64500] *)
Definition both_flags : Flags :=
  {| flag_cidr := "1.2.3.0/24"; flag_asn := "AS64500";
     flag_hosts := false; flag_fqdn := false; flag_filter := "" |}.

(** [gohfinder -c 1.2.3.0/24 -a AS64500 --hosts --filter host] *)
Definition both_flags_hosts : Flags :=
  {| flag_cidr := "1.2.3.0/24"; flag_asn := "AS64500";
     flag_hosts := true; flag_fqdn := false; flag_filter := "host" |}.

(** The index of the specification's example. *)
Definition two_hosts : HostnameIndex :=
  {[ "host1.example.com" := {[ "1.2.3.4" ]};
     "host2.example.com" := {[ "1.2.3.5" ]} ]}.

Definition partial1 : HostnameIndex := {[ "host1.example.com" := {[ "1.2.3.4" ]} ]}.
Definition partial2 : HostnameIndex := {[ "host2.example.com" := {[ "1.2.3.5" ]} ]}.

(** A hostname without any IP: no run of the program builds it, the type
    of [printResults] allows it. *)
Definition no_ip : HostnameIndex := {[ "host.example.com" := ∅ ]}.

(** [gohfinder] with no flag *)
Definition no_flags : Flags :=
  {| flag_cidr := ""; flag_asn := "";
     flag_hosts := false; flag_fqdn := false; flag_filter := "" |}.

(** [gohfinder -a AS64500,AS64502 --filter "("] *)
Definition asn_bad_filter : Flags :=
  {| flag_cidr := ""; flag_asn := "AS64500,AS64502";
     flag_hosts := false; flag_fqdn := false; flag_filter := "(" |}.

(** [gohfinder -c 1.2.3.0/24,,5.6.7.0/24 --fqdn] *)
Definition three_pieces : Flags :=
  {| flag_cidr := "1.2.3.0/24,,5.6.7.0/24"; flag_asn := "";
     flag_hosts := false; flag_fqdn := true; flag_filter := "" |}.

(** The same CIDR list, in hosts mode with a filter. *)
Definition three_pieces_hosts : Flags :=
  {| flag_cidr := "1.2.3.0/24,,5.6.7.0/24"; flag_asn := "";
     flag_hosts := true; flag_fqdn := false; flag_filter := "mail" |}.

(** A list whose second CIDR holds a tab. *)
Definition refused_second : Flags :=
  {| flag_cidr := "1.2.3.0/24,1.2.4.0/24" +:+ tab +:+ ",5.6.7.0/24"; flag_asn := "";
     flag_hosts := false; flag_fqdn := false; flag_filter := "" |}.

(** The index that the loop over the ASNs of [asn_bad_filter] builds. *)
Definition asn_bad_filter_index : HostnameIndex :=
  match fst (asn_loop canonical_order (strings.Split "AS64500,AS64502" ",") ∅ []) with
  | Done results => results
  | Fatal _ => ∅
  end.

(** [gohfinder -c 5.6.7.0/24,9.9.9.0/24]: a 404 and a transport error. *)
Definition all_fail : Flags :=
  {| flag_cidr := "5.6.7.0/24,9.9.9.0/24"; flag_asn := "";
     flag_hosts := false; flag_fqdn := false; flag_filter := "" |}.

(** Two hostnames on one IP, a third elsewhere. *)
Definition shared_ip : HostnameIndex :=
  {[ "www.example.com" := {[ "1.2.3.4" ]};
     "mail.example.com" := {[ "1.2.3.4"; "1.2.3.5" ]};
     "ns.example.org" := {[ "1.2.3.6" ]} ]}.

End Example.

(** ** A lookup service whose pages hold unusual names

    The hostnames and IPs of the index are what follows the URL prefix in
    the [href] of an anchor of the fetched page, taken as it is. *)

Module Unescaped.
Import Example.

Definition colon_in_hostname : page :=
  {| page_prefixes := [];
     page_anchors := [(dns_lookup +:+ "a: b", ip_lookup +:+ "c")] |}.

Definition space_in_ip : page :=
  {| page_prefixes := [];
     page_anchors := [(dns_lookup +:+ "host.example.com", ip_lookup +:+ "1.2.3.4 x")] |}.

Definition line_feed_in_hostname : page :=
  {| page_prefixes := [];
     page_anchors := [(dns_lookup +:+ "a" +:+ line_feed +:+ "b", ip_lookup +:+ "c")] |}.

Definition line_feed_in_ip : page :=
  {| page_prefixes := [];
     page_anchors := [(dns_lookup +:+ "host.example.com",
                       ip_lookup +:+ "c" +:+ line_feed +:+ "d")] |}.

Definition parse_body (body : string) : option page :=
  if bool_decide (body = "colon_in_hostname") then Some colon_in_hostname
  else if bool_decide (body = "space_in_ip") then Some space_in_ip
  else if bool_decide (body = "line_feed_in_hostname") then Some line_feed_in_hostname
  else if bool_decide (body = "line_feed_in_ip") then Some line_feed_in_ip
  else None.

Definition serve (url : string) : option (Z * string) :=
  if bool_decide (url = "https://www.robtex.com/cidr/10.0.0.0-24") then Some (200, "colon_in_hostname")
  else if bool_decide (url = "https://www.robtex.com/cidr/10.0.1.0-24") then Some (200, "space_in_ip")
  else if bool_decide (url = "https://www.robtex.com/cidr/10.0.2.0-24") then Some (200, "line_feed_in_hostname")
  else if bool_decide (url = "https://www.robtex.com/cidr/10.0.3.0-24") then Some (200, "line_feed_in_ip")
  else None.

#[local] Instance service : Libraries := {|
  Doc := page;
  Regexp := string;
  NewRequest_err := λ url,
    if has_ctl url then Some "net/url: invalid control character in URL" else None;
  client_Do := λ _ url, serve url;
  NewDocumentFromReader := parse_body;
  prefix_links := page_prefixes;
  dns_anchors := page_anchors;
  TrimSpace := λ s, trim_right (trim_left s);
  regexp_Compile := compile;
  MatchString := λ re hostname, strings.Contains hostname re
|}.

(** [gohfinder -c <cidr>] *)
Definition lookup (cidr : string) : Flags :=
  {| flag_cidr := cidr; flag_asn := "";
     flag_hosts := false; flag_fqdn := false; flag_filter := "" |}.

(** The index that the run of [lookup cidr] hands to [printResults]. *)
Definition index_of (cidr : string) : HostnameIndex :=
  match fst (cidr_loop canonical_order (strings.Split cidr ",") ∅ []) with
  | Done results => results
  | Fatal _ => ∅
  end.

End Unescaped.

(** ** Facts about the string functions *)

Module strings_facts.
Import strings.

(** The functions on the inputs of Go's documentation and of the program. *)
Example Split_commas : Split "a,b,,c" "," = ["a"; "b"; ""; "c"].
Proof. reflexivity. Qed.

Example Split_empty : Split "" "," = [""].
Proof. reflexivity. Qed.

Example Split_overlap : Split "aaa" "aa" = [""; "a"].
Proof. reflexivity. Qed.

Example Replace_first :
  Replace "https://www.robtex.com/dns-lookup/host1.example.com"
    "https://www.robtex.com/dns-lookup/" "" 1 = "host1.example.com".
Proof. reflexivity. Qed.

Example Replace_all : Replace "10.0.0.0/8/" "/" "-" (-1) = "10.0.0.0-8-".
Proof. reflexivity. Qed.

Example Replace_limit : Replace "aaaa" "aa" "b" 1 = "baa".
Proof. reflexivity. Qed.

Example Join_spaces : Join ["a"; "b"; "c"] " " = "a b c".
Proof. reflexivity. Qed.

Example Cut_first : Cut "host: 1 2" ": " = Some ("host", "1 2").
Proof. reflexivity. Qed.

Lemma prefix_byte (c a : ascii) (s : string) :
  String.prefix (String c "") (String a s) = bool_decide (c = a).
Proof.
  simpl. destruct (Ascii.ascii_dec c a) as [->|Hne].
  - rewrite bool_decide_eq_true_2 by done. by destruct s.
  - by rewrite bool_decide_eq_false_2.
Qed.

Lemma Contains_cons (c : ascii) (s sub : string) :
  Contains (String c s) sub = false →
  String.prefix sub (String c s) = false ∧ Contains s sub = false.
Proof.
  change (Contains (String c s) sub)
    with (String.prefix sub (String c s) || Contains s sub).
  by intros [? ?]%orb_false_iff.
Qed.

(** A string without the separator is one piece. *)
Lemma Split_no_sep (s sep : string) :
  Contains s sep = false → Split s sep = [s].
Proof.
  unfold Split. induction s as [|c s IH]; intros Hc; [done|].
  apply Contains_cons in Hc as [Hp Hs].
  change (Split_from sep (String c s) 0) with
    (if String.prefix sep (String c s)
     then "" :: Split_from sep s (String.length sep - 1)
     else match Split_from sep s 0 with
          | piece :: pieces => String c piece :: pieces
          | [] => [String c ""]
          end).
  by rewrite Hp, IH.
Qed.

Lemma Split_byte_cons (c a : ascii) (s : string) :
  Split (String a s) (String c "") =
  if bool_decide (c = a) then "" :: Split s (String c "")
  else match Split s (String c "") with
       | piece :: pieces => String a piece :: pieces
       | [] => [String a ""]
       end.
Proof.
  unfold Split.
  change (Split_from (String c "") (String a s) 0) with
    (if String.prefix (String c "") (String a s)
     then "" :: Split_from (String c "") s 0
     else match Split_from (String c "") s 0 with
          | piece :: pieces => String a piece :: pieces
          | [] => [String a ""]
          end).
  by rewrite prefix_byte.
Qed.

(** No piece of a split on one byte holds that byte. *)
Lemma Split_byte_pieces (c : ascii) (s p : string) :
  p ∈ Split s (String c "") → Contains p (String c "") = false.
Proof.
  revert p. induction s as [|a s IH]; intros p.
  - intros ->%list_elem_of_singleton. reflexivity.
  - rewrite Split_byte_cons. case_bool_decide as Hca.
    + intros [->|Hin]%elem_of_cons; [done | by apply IH].
    + destruct (Split s (String c "")) as [|piece pieces] eqn:Hs.
      * intros ->%list_elem_of_singleton.
        change (String.prefix (String c "") (String a "") || Contains "" (String c "") = false).
        rewrite prefix_byte, bool_decide_eq_false_2 by done. done.
      * intros [->|Hin]%elem_of_cons.
        -- change (String.prefix (String c "") (String a piece) || Contains piece (String c "") = false).
           rewrite prefix_byte, bool_decide_eq_false_2 by done.
           apply IH. left.
        -- apply IH. by right.
Qed.

Lemma Split_nonempty (s sep : string) (skip : nat) : Split_from sep s skip ≠ [].
Proof.
  revert skip. induction s as [|a s IH]; intros skip; [done|].
  destruct skip as [|k]; cbn [Split_from]; [|apply IH].
  destruct (String.prefix sep (String a s)); [done|].
  by destruct (Split_from sep s 0).
Qed.

(** [Replace(s, "/", "-", -1)] changes each ["/"] into ["-"] and nothing else. *)
Lemma Replace_slash_from (s : string) (n : Z) :
  n < 0 → Replace_from "/" "-" s 0 n = map_bytes slash_to_dash s.
Proof.
  revert n. induction s as [|c s IH]; intros n Hn; [done|].
  change (Replace_from "/" "-" (String c s) 0 n) with
    (if negb (n =? 0) && String.prefix "/" (String c s)
     then "-" +:+ Replace_from "/" "-" s 0 (n - 1)
     else String c (Replace_from "/" "-" s 0 n)).
  rewrite prefix_byte.
  replace (n =? 0) with false by (symmetry; apply Z.eqb_neq; lia).
  cbn [negb andb map_bytes]. unfold slash_to_dash at 1.
  destruct (decide ("/"%char = c)) as [<-|Hne].
  - rewrite !bool_decide_eq_true_2 by done. cbn [String.append]. f_equal.
    apply IH. lia.
  - rewrite (bool_decide_eq_false_2 (_ = c)), (bool_decide_eq_false_2 (c = _))
      by congruence.
    f_equal. by apply IH.
Qed.

Lemma Replace_slash (s : string) :
  Replace s "/" "-" (-1) = map_bytes slash_to_dash s.
Proof. by apply Replace_slash_from. Qed.

End strings_facts.

(** ** The resolvers *)

Section Resolvers.
Context `{L : Libraries} (ord : MapOrder).
Import strings strings_facts.

Lemma for_each_Println {A} (f : A → string) (l : list A) (tr : list event) :
  for_each l (λ x, Println (f x)) tr = (Done tt, tr ++ map (λ x, EvPrint (f x)) l).
Proof.
  revert tr. induction l as [|x l IH]; intros tr.
  - unfold for_each, ret. by rewrite app_nil_r.
  - cbn [for_each map]. unfold bind, Println at 1. rewrite IH.
    by rewrite <- app_assoc.
Qed.

Lemma for_each_Println_id (l : list string) (tr : list event) :
  for_each l Println tr = (Done tt, tr ++ map EvPrint l).
Proof. apply (for_each_Println (λ x, x)). Qed.

(** Merging an empty result leaves the index as it was. *)
Lemma merge_into_empty (results : HostnameIndex) : merge_into ord results ∅ = results.
Proof.
  unfold merge_into.
  assert (range_idx ord ∅ = []) as ->; [|done].
  apply Permutation_nil_r. rewrite range_idx_perm. by rewrite map_to_list_empty.
Qed.

(** What [searchCIDR] does once its request is built. *)
Lemma searchCIDR_built (cidr : string) (tr : list event) :
  let url := robtexURL +:+ Replace cidr "/" "-" (-1) in
  NewRequest_err url = None →
  searchCIDR cidr tr =
  (Done match client_Do tr url with
        | None => ∅
        | Some (status, body) =>
            if negb (status =? StatusOK) then ∅
            else match NewDocumentFromReader body with
                 | None => ∅
                 | Some doc => foldl add_anchor ∅ (dns_anchors doc)
                 end
        end,
   tr ++ [EvGet url]).
Proof.
  intros url Hreq. unfold searchCIDR. fold url. rewrite Hreq.
  unfold bind, Do. destruct (client_Do tr url) as [[status body]|]; [|done].
  destruct (negb (status =? StatusOK)); [done|].
  by destruct (NewDocumentFromReader body).
Qed.

Lemma searchCIDR_refused (cidr : string) (tr : list event) (err : string) :
  NewRequest_err (robtexURL +:+ Replace cidr "/" "-" (-1)) = Some err →
  searchCIDR cidr tr = (Fatal ("Failed to create HTTP request: " +:+ err), tr).
Proof. intros Hreq. unfold searchCIDR. by rewrite Hreq. Qed.

(** C7 (as amended): for every CIDR whose request [http.NewRequest] builds,
    [searchCIDR] sends exactly one GET, to the lookup URL made of the CIDR
    with each ["/"] changed into ["-"], and returns to its caller; when the
    lookup fails by a transport error, a status other than 200 or an HTML
    parse error, what it returns is the empty mapping, from which the
    aggregation takes nothing. When the request cannot be built, no GET is
    sent and the process stops, with the message of [log.Fatalf] and exit
    status 1. *)
Theorem searchCIDR_one_fetch (cidr : string) (tr : list event) :
  let url := robtexURL +:+ map_bytes slash_to_dash cidr in
  (NewRequest_err url = None →
   ∃ res, searchCIDR cidr tr = (Done res, tr ++ [EvGet url]) ∧
          (lookup_failed tr url →
           res = ∅ ∧ ∀ results, merge_into ord results res = results)) ∧
  (∀ err, NewRequest_err url = Some err →
   searchCIDR cidr tr = (Fatal ("Failed to create HTTP request: " +:+ err), tr) ∧
   requests (snd (searchCIDR cidr tr)) = requests tr ∧
   exit_status (fst (searchCIDR cidr tr)) = 1).
Proof.
  intros url. subst url. rewrite <- Replace_slash. split.
  - intros Hreq. rewrite searchCIDR_built by done. eexists. split; [done|].
    intros Hfail. assert (∀ res : HostnameIndex, res = ∅ →
      res = ∅ ∧ ∀ results, merge_into ord results res = results) as Hempty.
    { intros res ->. split; [done|]. apply merge_into_empty. }
    apply Hempty. destruct Hfail as [->|(status & body & -> & [Hst|Hdoc])]; [done| |].
    + replace (status =? StatusOK) with false by (symmetry; by apply Z.eqb_neq). done.
    + destruct (negb (status =? StatusOK)); [done|]. by rewrite Hdoc.
  - intros err Hreq. by rewrite (searchCIDR_refused cidr tr err Hreq).
Qed.

(** One step of the loop of [searchASN] on an ASN whose request is built. *)
Lemma searchASN_loop_built (asn : string) (rest ranges : list string) (tr : list event) :
  let url := bgpURL +:+ asn in
  NewRequest_err url = None →
  searchASN_loop (asn :: rest) ranges tr =
  match client_Do tr url with
  | None => searchASN_loop rest ranges (tr ++ [EvGet url])
  | Some (status, body) =>
      if negb (status =? StatusOK) then searchASN_loop rest ranges (tr ++ [EvGet url])
      else match NewDocumentFromReader body with
           | None => searchASN_loop rest ranges (tr ++ [EvGet url])
           | Some doc =>
               searchASN_loop rest (ranges ++ table_prefixes doc)
                 ((tr ++ [EvGet url]) ++ map EvPrint (ranges ++ table_prefixes doc))
           end
  end.
Proof.
  intros url Hreq. cbn [searchASN_loop]. fold url. rewrite Hreq.
  unfold bind at 1, Do. destruct (client_Do tr url) as [[status body]|]; [|done].
  destruct (negb (status =? StatusOK)); [done|].
  destruct (NewDocumentFromReader body) as [doc|]; [|done].
  unfold bind. by rewrite for_each_Println_id.
Qed.

(** C8: in the loop of [searchASN], an ASN whose lookup fails by a transport
    error, a status other than 200 or an HTML parse error adds no prefix to
    [ranges] and prints nothing, and the loop goes on with the remaining
    ASNs: from any point of the batch, the call behaves as it does on the
    rest of the list, one GET later. *)
Theorem searchASN_skips_failed
    (asn : string) (rest ranges : list string) (tr : list event) :
  NewRequest_err (bgpURL +:+ asn) = None →
  lookup_failed tr (bgpURL +:+ asn) →
  searchASN_loop (asn :: rest) ranges tr =
  searchASN_loop rest ranges (tr ++ [EvGet (bgpURL +:+ asn)]).
Proof.
  intros Hreq Hfail. rewrite searchASN_loop_built by done.
  destruct Hfail as [->|(status & body & -> & [Hst|Hdoc])]; [done| |].
  - replace (status =? StatusOK) with false by (symmetry; by apply Z.eqb_neq). done.
  - destruct (negb (status =? StatusOK)); [done|]. by rewrite Hdoc.
Qed.

(** [Action] hands [searchASN] one identifier at a time. *)
Lemma searchASN_single (asn : string) (tr : list event) :
  Contains asn "," = false → searchASN asn tr = searchASN_loop [asn] [] tr.
Proof. intros Hc. unfold searchASN. by rewrite Split_no_sep. Qed.

(** What [searchASN] does on one identifier whose request is built. *)
Lemma searchASN_one (asn : string) (tr : list event) :
  Contains asn "," = false →
  NewRequest_err (bgpURL +:+ asn) = None →
  searchASN asn tr =
  (Done (asn_prefixes tr asn),
   tr ++ EvGet (bgpURL +:+ asn) :: map EvPrint (asn_prefixes tr asn)).
Proof.
  intros Hc Hreq. rewrite searchASN_single by done.
  rewrite searchASN_loop_built by done. cbn [searchASN_loop]. unfold ret, asn_prefixes.
  destruct (client_Do tr (bgpURL +:+ asn)) as [[status body]|]; [|done].
  destruct (status =? StatusOK); [|done]. cbn [negb].
  destruct (NewDocumentFromReader body) as [doc|]; [|done].
  rewrite app_nil_l. by rewrite <- app_assoc.
Qed.

(** In the loop of [Action], a failed lookup of one ASN leaves the index as
    it was and the loop goes on with the next ASN. *)
Lemma asn_loop_skips_failed (asn : string) (rest : list string)
    (results : HostnameIndex) (tr : list event) :
  Contains asn "," = false →
  NewRequest_err (bgpURL +:+ asn) = None →
  lookup_failed tr (bgpURL +:+ asn) →
  asn_loop ord (asn :: rest) results tr =
  asn_loop ord rest results (tr ++ [EvGet (bgpURL +:+ asn)]).
Proof.
  intros Hc Hreq Hfail. cbn [asn_loop]. unfold bind at 1.
  rewrite searchASN_one by done.
  assert (asn_prefixes tr asn = []) as ->; [|done].
  unfold asn_prefixes.
  destruct Hfail as [->|(status & body & -> & [Hst|Hdoc])]; [done| |].
  - replace (status =? StatusOK) with false by (symmetry; by apply Z.eqb_neq). done.
  - destruct (status =? StatusOK); [|done]. by rewrite Hdoc.
Qed.

End Resolvers.

(** ** The presenter and the cli action *)

Section Presenter.
Context `{L : Libraries} (ord : MapOrder).
Import strings strings_facts.

Lemma compile_filter_cases (filter : string) (tr : list event) :
  (filter = "" ∧ compile_filter filter tr = (Done None, tr)) ∨
  (∃ re, filter ≠ "" ∧ regexp_Compile filter = inl re ∧
         compile_filter filter tr = (Done (Some re), tr)) ∨
  (∃ err, filter ≠ "" ∧ regexp_Compile filter = inr err ∧
          compile_filter filter tr = (Fatal ("Invalid regex pattern: " +:+ err), tr)).
Proof.
  unfold compile_filter. case_bool_decide as Hf; [by left|right].
  destruct (regexp_Compile filter) as [re|err]; [left|right]; eauto.
Qed.

Lemma for_each_ext {A} (f g : A → M unit) (l : list A) (tr : list event) :
  (∀ x tr1, f x tr1 = g x tr1) → for_each l f tr = for_each l g tr.
Proof.
  intros Hfg. revert tr. induction l as [|x l IH]; intros tr; [done|].
  cbn [for_each]. unfold bind. rewrite Hfg.
  destruct (g x tr) as [[[]|msg] tr1]; [apply IH | done].
Qed.

Lemma for_each_selected {A} (p : A → bool) (f : A → string) (l : list A) (tr : list event) :
  for_each l (λ x, if p x then Println (f x) else ret tt) tr =
  (Done tt, tr ++ map (λ x, EvPrint (f x)) (List.filter p l)).
Proof.
  revert tr. induction l as [|x l IH]; intros tr.
  - unfold for_each, ret. by rewrite app_nil_r.
  - cbn [for_each List.filter]. unfold bind. destruct (p x).
    + unfold Println at 1. rewrite IH. cbn [map]. by rewrite <- app_assoc.
    + unfold ret at 1. by rewrite IH.
Qed.

(** With a usable filter, [printResults] writes its rows, one line each. *)
Lemma printResults_rows (results : HostnameIndex) (hosts fqdn : bool)
    (filter : string) (re : option Regexp) (tr : list event) :
  compile_filter filter tr = (Done re, tr) →
  printResults ord results hosts fqdn filter tr =
  (Done tt, tr ++ map (λ row, EvPrint (format_row hosts fqdn row))
                      (rows ord results hosts filter re)).
Proof.
  intros Hre. unfold printResults, bind. rewrite Hre. unfold rows.
  destruct hosts.
  - rewrite for_each_Println. by rewrite map_map.
  - rewrite map_map.
    rewrite <- (for_each_selected (λ kv, selected filter re kv.1)
                  (λ kv, format_row false fqdn (kv.1, range_set ord kv.2))).
    apply for_each_ext. intros kv tr1. unfold format_row, default_line. cbn [fst snd].
    by destruct (selected filter re kv.1), fqdn.
Qed.

(** C6: when a filter is supplied and does not compile, [printResults]
    stops the process with the message ["Invalid regex pattern: "] and the
    error's text, whatever the index and the two mode flags: the trace is
    the one it started from, so no line has been written, and the exit
    status is 1. *)
Theorem printResults_invalid_filter (results : HostnameIndex) (hosts fqdn : bool)
    (filter err : string) (tr : list event) :
  filter ≠ "" →
  regexp_Compile filter = inr err →
  printResults ord results hosts fqdn filter tr =
    (Fatal ("Invalid regex pattern: " +:+ err), tr) ∧
  stdout (snd (printResults ord results hosts fqdn filter tr)) = stdout tr ∧
  exit_status (fst (printResults ord results hosts fqdn filter tr)) = 1.
Proof.
  intros Hf Herr.
  assert (printResults ord results hosts fqdn filter tr =
          (Fatal ("Invalid regex pattern: " +:+ err), tr)) as ->; [|done].
  unfold printResults, bind, compile_filter.
  rewrite bool_decide_eq_false_2 by done. by rewrite Herr.
Qed.

(** [printResults] only writes lines. *)
Lemma printResults_events (results : HostnameIndex) (hosts fqdn : bool)
    (filter : string) (tr : list event) :
  ∃ lines, snd (printResults ord results hosts fqdn filter tr) = tr ++ map EvPrint lines.
Proof.
  destruct (compile_filter_cases filter tr) as [[_ Hc]|[(re & _ & _ & Hc)|(err & _ & _ & Hc)]].
  - rewrite (printResults_rows _ _ _ _ _ _ Hc). eexists. cbn [snd].
    by rewrite <- (map_map (format_row hosts fqdn) EvPrint).
  - rewrite (printResults_rows _ _ _ _ _ _ Hc). eexists. cbn [snd].
    by rewrite <- (map_map (format_row hosts fqdn) EvPrint).
  - exists []. unfold printResults, bind. rewrite Hc. cbn. by rewrite app_nil_r.
Qed.

(** [searchCIDR] sends at most one GET, to the CIDR lookup service. *)
Lemma searchCIDR_events (cidr : string) (tr : list event) :
  ∃ new, snd (searchCIDR cidr tr) = tr ++ new ∧ Forall robtex_get new.
Proof.
  destruct (NewRequest_err (robtexURL +:+ Replace cidr "/" "-" (-1))) as [err|] eqn:Hreq.
  - rewrite (searchCIDR_refused _ _ _ Hreq). exists []. by rewrite app_nil_r.
  - rewrite (searchCIDR_built _ _ Hreq). eexists. split; [done|].
    apply Forall_singleton. by eexists.
Qed.

Lemma cidr_loop_events (cidrs : list string) (results : HostnameIndex) (tr : list event) :
  ∃ new, snd (cidr_loop ord cidrs results tr) = tr ++ new ∧ Forall robtex_get new.
Proof.
  revert results tr. induction cidrs as [|cidr rest IH]; intros results tr.
  - exists []. by rewrite app_nil_r.
  - cbn [cidr_loop]. unfold bind.
    destruct (searchCIDR_events cidr tr) as (new1 & Htr1 & Hnew1).
    destruct (searchCIDR cidr tr) as [[res|msg] tr1]; cbn [snd] in Htr1; subst tr1.
    + destruct (IH (merge_into ord results res) (tr ++ new1)) as (new2 & -> & Hnew2).
      exists (new1 ++ new2). rewrite app_assoc. split; [done|]. by apply Forall_app.
    + by exists new1.
Qed.

(** No GET to the CIDR lookup service is a GET to the ASN lookup service. *)
Lemma robtex_not_bgp (e : event) : robtex_get e → ¬ bgp_get e.
Proof.
  intros [uri ->] [asn Heq].
  apply (f_equal (λ e, match e with EvGet u => String.get 8 u | EvPrint _ => None end)) in Heq.
  discriminate Heq.
Qed.

End Presenter.

(** ** The cli action *)

Section CliAction.
Context `{L : Libraries} (ord : MapOrder).
Import strings strings_facts.

Lemma library_failure_not_invalid (msg : string) :
  library_failure msg → msg ≠ invalid_parameters.
Proof.
  intros [err [->| ->]] Heq.
  - apply (f_equal (String.get 0)) in Heq. discriminate Heq.
  - apply (f_equal (String.get 8)) in Heq. discriminate Heq.
Qed.

Lemma searchCIDR_fatal (cidr : string) (tr : list event) (msg : string) :
  fst (searchCIDR cidr tr) = Fatal msg → library_failure msg.
Proof.
  destruct (NewRequest_err (robtexURL +:+ Replace cidr "/" "-" (-1))) as [err|] eqn:Hreq.
  - rewrite (searchCIDR_refused _ _ _ Hreq). intros [= <-]. exists err. by left.
  - by rewrite (searchCIDR_built _ _ Hreq).
Qed.

Lemma cidr_loop_fatal (cidrs : list string) (results : HostnameIndex)
    (tr : list event) (msg : string) :
  fst (cidr_loop ord cidrs results tr) = Fatal msg → library_failure msg.
Proof.
  revert results tr. induction cidrs as [|cidr rest IH]; intros results tr; [done|].
  cbn [cidr_loop]. unfold bind.
  pose proof (searchCIDR_fatal cidr tr) as Hs.
  destruct (searchCIDR cidr tr) as [[res|msg1] tr1]; [apply IH|].
  intros [= <-]. by apply Hs.
Qed.

Lemma searchASN_loop_fatal (asnList ranges : list string) (tr : list event) (msg : string) :
  fst (searchASN_loop asnList ranges tr) = Fatal msg → library_failure msg.
Proof.
  revert ranges tr. induction asnList as [|asn rest IH]; intros ranges tr; [done|].
  destruct (NewRequest_err (bgpURL +:+ asn)) as [err|] eqn:Hreq.
  - cbn [searchASN_loop]. rewrite Hreq. intros [= <-]. exists err. by left.
  - rewrite searchASN_loop_built by done.
    destruct (client_Do tr (bgpURL +:+ asn)) as [[status body]|]; [|apply IH].
    destruct (negb (status =? StatusOK)); [apply IH|].
    destruct (NewDocumentFromReader body); apply IH.
Qed.

Lemma asn_loop_fatal (asns : list string) (results : HostnameIndex)
    (tr : list event) (msg : string) :
  fst (asn_loop ord asns results tr) = Fatal msg → library_failure msg.
Proof.
  revert results tr. induction asns as [|asn rest IH]; intros results tr; [done|].
  cbn [asn_loop]. unfold bind.
  pose proof (searchASN_loop_fatal (Split asn ",") [] tr) as Hs.
  fold (searchASN asn) in Hs.
  destruct (searchASN asn tr) as [[ranges|msg1] tr1]; [|intros [= <-]; by apply Hs].
  pose proof (cidr_loop_fatal ranges results tr1) as Hc.
  destruct (cidr_loop ord ranges results tr1) as [[results1|msg1] tr2]; [apply IH|].
  intros [= <-]. by apply Hc.
Qed.

Lemma printResults_fatal (results : HostnameIndex) (hosts fqdn : bool)
    (filter : string) (tr : list event) (msg : string) :
  fst (printResults ord results hosts fqdn filter tr) = Fatal msg → library_failure msg.
Proof.
  destruct (compile_filter_cases filter tr) as [[_ Hc]|[(re & _ & _ & Hc)|(err & _ & _ & Hc)]].
  - by rewrite (printResults_rows _ _ _ _ _ _ _ Hc).
  - by rewrite (printResults_rows _ _ _ _ _ _ _ Hc).
  - unfold printResults, bind. rewrite Hc. intros [= <-]. exists err. by right.
Qed.

(** What [Action] returns: an error exactly when both flags are empty. *)
Lemma Action_outcome (c : Flags) (tr : list event) :
  match fst (Action ord c tr) with
  | Done None => flag_cidr c ≠ "" ∨ flag_asn c ≠ ""
  | Done (Some msg) => msg = invalid_parameters ∧ flag_cidr c = "" ∧ flag_asn c = ""
  | Fatal msg => library_failure msg ∧ (flag_cidr c ≠ "" ∨ flag_asn c ≠ "")
  end.
Proof.
  unfold Action. case_bool_decide as Hc; cbn [negb].
  - case_bool_decide as Ha; cbn [negb]; [done|]. unfold bind.
    pose proof (asn_loop_fatal (Split (flag_asn c) ",") ∅ tr) as H1.
    destruct (asn_loop _ _ _ tr) as [[results|msg] tr1]; [|split; [by apply H1 | by right]].
    pose proof (printResults_fatal results (flag_hosts c) (flag_fqdn c) (flag_filter c) tr1) as H2.
    destruct (printResults _ _ _ _ _ tr1) as [[[]|msg] tr2]; [by right|].
    split; [by apply H2 | by right].
  - unfold bind.
    pose proof (cidr_loop_fatal (Split (flag_cidr c) ",") ∅ tr) as H1.
    destruct (cidr_loop _ _ _ tr) as [[results|msg] tr1]; [|split; [by apply H1 | by left]].
    pose proof (printResults_fatal results (flag_hosts c) (flag_fqdn c) (flag_filter c) tr1) as H2.
    destruct (printResults _ _ _ _ _ tr1) as [[[]|msg] tr2]; [by left|].
    split; [by apply H2 | by left].
Qed.

Lemma main_no_flags (c : Flags) (tr : list event) :
  flag_cidr c = "" → flag_asn c = "" → main ord c tr = (Fatal invalid_parameters, tr).
Proof.
  intros Hc Ha. unfold main, Action, bind. by rewrite !bool_decide_eq_true_2.
Qed.

(** With a CIDR list, the value of [--asn] is never read. *)
Lemma main_ignores_asn (c : Flags) (tr : list event) :
  flag_cidr c ≠ "" → main ord c tr = main ord (without_asn c) tr.
Proof.
  intros Hc. unfold main, Action. cbn [without_asn flag_cidr flag_asn flag_hosts flag_fqdn flag_filter].
  by rewrite !(bool_decide_eq_false_2 (flag_cidr c = "")).
Qed.

(** C1 (as amended): the process stops with ["Invalid parameters. Please
    provide either -c or -a"] exactly when both [--cidr] and [--asn] are
    empty, and then it has sent and written nothing and its exit status is
    1; when [--cidr] is not empty, [--asn] empty or not, that error is not
    reported and the run is the one of the CIDR list alone, so no
    invocation processes both lists. *)
Theorem invalid_parameters_iff (c : Flags) (tr : list event) :
  (fst (main ord c tr) = Fatal invalid_parameters ↔ flag_cidr c = "" ∧ flag_asn c = "") ∧
  (flag_cidr c = "" ∧ flag_asn c = "" →
   main ord c tr = (Fatal invalid_parameters, tr) ∧ exit_status (fst (main ord c tr)) = 1) ∧
  (flag_cidr c ≠ "" → main ord c tr = main ord (without_asn c) tr).
Proof.
  split; [split|split].
  - intros Hm. pose proof (Action_outcome c tr) as Ho. unfold main, bind in Hm.
    destruct (Action ord c tr) as [[[msg|]|msg] tr1]; cbn [fst] in Ho.
    + by destruct Ho as (_ & ? & ?).
    + done.
    + destruct Ho as [Hl _]. cbn [fst] in Hm. injection Hm as ->.
      by apply library_failure_not_invalid in Hl.
  - intros [Hc Ha]. by rewrite main_no_flags.
  - intros [Hc Ha]. by rewrite main_no_flags.
  - apply main_ignores_asn.
Qed.

(** C10: when both [--cidr] and [--asn] are non-empty, the run is, event
    for event and with the same outcome, the run of the same invocation
    without [--asn] (for one behaviour of the network and one order of
    [range]); the invalid-parameters error is not reported, and no GET
    goes to the ASN lookup service: each one goes to the CIDR lookup
    service. *)
Theorem cidr_takes_priority (c : Flags) (tr : list event) :
  flag_cidr c ≠ "" → flag_asn c ≠ "" →
  main ord c tr = main ord (without_asn c) tr ∧
  fst (main ord c tr) ≠ Fatal invalid_parameters ∧
  ∃ new, snd (main ord c tr) = tr ++ new ∧
         Forall (λ e, ¬ bgp_get e ∧ (robtex_get e ∨ ∃ line, e = EvPrint line)) new.
Proof.
  intros Hc Ha. split; [by apply main_ignores_asn|]. split.
  - pose proof (Action_outcome c tr) as Ho. unfold main, bind.
    destruct (Action ord c tr) as [[[msg|]|msg] tr1]; cbn [fst] in *.
    + by destruct Ho as (_ & ? & _).
    + done.
    + destruct Ho as [Hl _]. intros [= ->]. by apply library_failure_not_invalid in Hl.
  - unfold main, Action. rewrite bool_decide_eq_false_2 by done. cbn [negb].
    unfold bind.
    destruct (cidr_loop_events ord (Split (flag_cidr c) ",") ∅ tr) as (new1 & Htr1 & Hnew1).
    destruct (cidr_loop _ _ _ tr) as [[results|msg] tr1]; cbn [snd] in Htr1; subst tr1.
    + destruct (printResults_events ord results (flag_hosts c) (flag_fqdn c)
                  (flag_filter c) (tr ++ new1)) as (lines & Htr2).
      destruct (printResults _ _ _ _ _ (tr ++ new1)) as [[[]|msg] tr2];
        cbn [snd] in Htr2; subst tr2; cbn [snd].
      all: exists (new1 ++ map EvPrint lines); rewrite app_assoc; split; [done|].
      all: apply Forall_app; split;
        [eapply Forall_impl; [exact Hnew1|]; intros e He; split;
           [by apply robtex_not_bgp | by left]
        |apply Forall_forall; intros e (line & -> & _)%list_elem_of_fmap; split;
           [intros [asn [=]] | right; by eexists]].
    + exists new1. split; [done|]. eapply Forall_impl; [exact Hnew1|].
      intros e He. split; [by apply robtex_not_bgp | by left].
Qed.

Lemma stdout_app (tr1 tr2 : list event) : stdout (tr1 ++ tr2) = stdout tr1 ++ stdout tr2.
Proof. apply omap_app. Qed.

Lemma stdout_print (line : string) (tr : list event) :
  stdout (EvPrint line :: tr) = line :: stdout tr.
Proof. done. Qed.

Lemma stdout_get (url : string) (tr : list event) : stdout (EvGet url :: tr) = stdout tr.
Proof. done. Qed.

Lemma stdout_prints (lines : list string) : stdout (map EvPrint lines) = lines.
Proof.
  induction lines as [|l lines IH]; [done|].
  cbn [map]. by rewrite stdout_print, IH.
Qed.

Lemma stdout_robtex (new : list event) : Forall robtex_get new → stdout new = [].
Proof. induction 1 as [|e new [uri ->] _ IH]; [done|]. by rewrite stdout_get. Qed.

(** The lines written during the loop of [Action] over the ASNs are the
    prefixes discovered, each one once, in the order of discovery. *)
Lemma asn_loop_stdout (asns : list string) (results : HostnameIndex) (tr : list event) :
  Forall (λ asn, Contains asn "," = false) asns →
  stdout (snd (asn_loop ord asns results tr)) =
  stdout tr ++ asn_loop_prefixes ord asns results tr.
Proof.
  intros Hasns. revert results tr.
  induction Hasns as [|asn rest Hasn _ IH]; intros results tr.
  - cbn. by rewrite app_nil_r.
  - cbn [asn_loop asn_loop_prefixes]. unfold bind.
    destruct (NewRequest_err (bgpURL +:+ asn)) as [err|] eqn:Hreq.
    { rewrite !searchASN_single by done. cbn [searchASN_loop]. rewrite Hreq.
      cbn. by rewrite app_nil_r. }
    rewrite !searchASN_one by done.
    set (tr1 := tr ++ EvGet (bgpURL +:+ asn) :: map EvPrint (asn_prefixes tr asn)).
    assert (stdout tr1 = stdout tr ++ asn_prefixes tr asn) as Htr1.
    { unfold tr1. by rewrite stdout_app, stdout_get, stdout_prints. }
    destruct (cidr_loop_events ord (asn_prefixes tr asn) results tr1) as (new & Htr2 & Hnew).
    destruct (cidr_loop ord (asn_prefixes tr asn) results tr1) as [[results1|msg] tr2];
      cbn [snd] in Htr2; subst tr2.
    + rewrite IH, stdout_app, Htr1, (stdout_robtex new Hnew), app_nil_r.
      by rewrite <- app_assoc.
    + cbn [snd]. rewrite stdout_app, Htr1, (stdout_robtex new Hnew), !app_nil_r. done.
Qed.

(** The same lines, told from the answers of the network alone. *)
Lemma asn_loop_discovered (asns : list string) (results : HostnameIndex) (tr : list event) :
  Forall (λ asn, Contains asn "," = false) asns →
  stdout (snd (asn_loop ord asns results tr)) =
  stdout tr ++ discovered_prefixes ord asns results tr.
Proof.
  intros Hasns. revert results tr.
  induction Hasns as [|asn rest Hasn _ IH]; intros results tr.
  - cbn. by rewrite app_nil_r.
  - cbn [asn_loop discovered_prefixes]. unfold bind.
    destruct (NewRequest_err (bgpURL +:+ asn)) as [err|] eqn:Hreq.
    { rewrite !searchASN_single by done. cbn [searchASN_loop]. rewrite Hreq.
      cbn. by rewrite app_nil_r. }
    rewrite !searchASN_one by done. cbv zeta.
    set (tr1 := tr ++ EvGet (bgpURL +:+ asn) :: map EvPrint (asn_prefixes tr asn)).
    assert (stdout tr1 = stdout tr ++ asn_prefixes tr asn) as Htr1.
    { unfold tr1. by rewrite stdout_app, stdout_get, stdout_prints. }
    destruct (cidr_loop_events ord (asn_prefixes tr asn) results tr1) as (new & Htr2 & Hnew).
    destruct (cidr_loop ord (asn_prefixes tr asn) results tr1) as [[results1|msg] tr2];
      cbn [snd] in Htr2; subst tr2.
    + rewrite IH, stdout_app, Htr1, (stdout_robtex new Hnew), app_nil_r.
      by rewrite <- app_assoc.
    + cbn [snd]. rewrite stdout_app, Htr1, (stdout_robtex new Hnew), !app_nil_r. done.
Qed.

(** C9: for every value of [--asn], every piece of the value between
    commas is one ASN, so each list that [searchASN] walks has one
    element; from any point of the run, when the request of that ASN is
    built, [searchASN] sends its GET and then writes each prefix on the
    page that the network answers on a line of standard output, once, in
    the order of the page and before any other event, and returns these
    same prefixes to its caller; when the request cannot be built, the
    process stops with the message of [log.Fatalf], nothing sent or
    written. Over the whole list, the lines written during the ASN
    resolution are exactly the prefixes discovered, one line each. *)
Theorem searchASN_traces_each_prefix (flag : string) :
  Forall (λ asn,
    Split asn "," = [asn] ∧
    ∀ tr,
      (NewRequest_err (bgpURL +:+ asn) = None →
       searchASN asn tr =
       (Done (asn_prefixes tr asn),
        tr ++ EvGet (bgpURL +:+ asn) :: map EvPrint (asn_prefixes tr asn))) ∧
      (∀ err, NewRequest_err (bgpURL +:+ asn) = Some err →
       searchASN asn tr = (Fatal ("Failed to create HTTP request: " +:+ err), tr)))
    (Split flag ",") ∧
  ∀ results tr,
    stdout (snd (asn_loop ord (Split flag ",") results tr)) =
    stdout tr ++ discovered_prefixes ord (Split flag ",") results tr.
Proof.
  split.
  - apply Forall_forall. intros asn Hin%Split_byte_pieces.
    split; [by apply Split_no_sep|]. intros tr. split.
    + intros Hreq. by rewrite searchASN_one.
    + intros err Hreq. rewrite searchASN_single by done.
      cbn [searchASN_loop]. by rewrite Hreq.
  - intros results tr. apply asn_loop_discovered, Forall_forall.
    intros asn Hin. by eapply Split_byte_pieces.
Qed.

End CliAction.

(** ** The aggregation *)

Section Aggregation.
Context `{L : Libraries}.

Lemma range_set_elem (ord : MapOrder) (s : gset string) (x : string) :
  x ∈ range_set ord s ↔ x ∈ s.
Proof. rewrite (range_set_perm ord s). apply elem_of_elements. Qed.

Lemma range_set_to_set (ord : MapOrder) (s : gset string) :
  list_to_set (range_set ord s) = s.
Proof. apply set_eq. intros x. by rewrite elem_of_list_to_set, range_set_elem. Qed.

Lemma range_idx_elem (ord : MapOrder) (m : HostnameIndex) (k : string) (v : gset string) :
  (k, v) ∈ range_idx ord m ↔ m !! k = Some v.
Proof. rewrite (range_idx_perm ord m). apply elem_of_map_to_list. Qed.

Lemma range_idx_NoDup (ord : MapOrder) (m : HostnameIndex) :
  NoDup (range_idx ord m).*1.
Proof. rewrite (range_idx_perm ord m). apply NoDup_fst_map_to_list. Qed.

Lemma range_idx_to_map (ord : MapOrder) (m : HostnameIndex) :
  list_to_map (range_idx ord m) = m.
Proof.
  rewrite <- (list_to_map_to_list m) at 2.
  apply list_to_map_proper; [apply range_idx_NoDup | apply range_idx_perm].
Qed.

Lemma ensure_lookup (m : HostnameIndex) (k j : string) :
  ensure m k !! j = if decide (k = j) then Some (default ∅ (m !! k)) else m !! j.
Proof.
  unfold ensure. destruct (m !! k) as [s|] eqn:Hk.
  - case_decide; [by subst|done].
  - rewrite lookup_insert. by case_decide.
Qed.

Lemma put_lookup (m : HostnameIndex) (k x j : string) :
  put m k x !! j = if decide (k = j) then (λ s, {[x]} ∪ s) <$> m !! k else m !! j.
Proof.
  unfold put. rewrite lookup_alter. case_decide; [by subst|done].
Qed.

Lemma foldl_put_lookup (m : HostnameIndex) (k j : string) (xs : list string) :
  foldl (λ r x, put r k x) m xs !! j =
  if decide (k = j) then (λ s, list_to_set xs ∪ s) <$> m !! k else m !! j.
Proof.
  revert m. induction xs as [|x xs IH]; intros m; cbn [foldl].
  - case_decide; [subst|done]. destruct (m !! j); [|done].
    cbn. f_equal. set_solver.
  - rewrite IH. case_decide; [subst|]; rewrite put_lookup.
    + rewrite decide_True by done. destruct (m !! j); [|done].
      cbn. f_equal. set_solver.
    + by rewrite decide_False.
Qed.

Lemma merge_entry_lookup (ord : MapOrder) (results : HostnameIndex)
    (k : string) (v : gset string) (j : string) :
  merge_entry ord results (k, v) !! j =
  if decide (k = j) then Some (v ∪ default ∅ (results !! k)) else results !! j.
Proof.
  unfold merge_entry. cbn [fst snd]. rewrite foldl_put_lookup, range_set_to_set.
  rewrite !ensure_lookup. destruct (decide (k = j)) as [->|Hne].
  - by rewrite decide_True.
  - done.
Qed.

Lemma index_union_lookup (a b : HostnameIndex) (j : string) :
  index_union a b !! j = union_with (λ s t, Some (s ∪ t)) (a !! j) (b !! j).
Proof. apply lookup_union_with. Qed.

Lemma foldl_merge_entry (ord : MapOrder) (results : HostnameIndex)
    (l : list (string * gset string)) :
  NoDup l.*1 → foldl (merge_entry ord) results l = index_union results (list_to_map l).
Proof.
  revert results. induction l as [|[k v] l IH]; intros results Hnd.
  - apply map_eq. intros j. rewrite index_union_lookup. cbn. rewrite lookup_empty.
    by destruct (results !! j).
  - apply NoDup_cons in Hnd as [Hk Hnd]. cbn [foldl]. rewrite IH by done.
    apply map_eq. intros j. rewrite !index_union_lookup, merge_entry_lookup.
    cbn [list_to_map foldr]. cbn. rewrite lookup_insert.
    case_decide as Hkj; [subst j|done].
    rewrite (not_elem_of_list_to_map_1 l k) by done.
    destruct (results !! k) as [s|]; cbn; f_equal; set_solver.
Qed.

(** The merge loop computes the union, whatever the order of [range]. *)
Lemma merge_into_union (ord : MapOrder) (results res : HostnameIndex) :
  merge_into ord results res = index_union results res.
Proof.
  unfold merge_into. rewrite foldl_merge_entry by apply range_idx_NoDup.
  by rewrite range_idx_to_map.
Qed.

Lemma index_union_assoc (a b c : HostnameIndex) :
  index_union (index_union a b) c = index_union a (index_union b c).
Proof.
  apply map_eq. intros j. rewrite !index_union_lookup.
  destruct (a !! j), (b !! j), (c !! j); cbn; f_equal; set_solver.
Qed.

Lemma index_union_comm (a b : HostnameIndex) : index_union a b = index_union b a.
Proof.
  apply map_eq. intros j. rewrite !index_union_lookup.
  destruct (a !! j), (b !! j); cbn; f_equal; set_solver.
Qed.

Lemma index_union_idemp (a : HostnameIndex) : index_union a a = a.
Proof.
  apply map_eq. intros j. rewrite !index_union_lookup.
  destruct (a !! j); cbn; f_equal; set_solver.
Qed.

Lemma index_union_empty_l (a : HostnameIndex) : index_union ∅ a = a.
Proof.
  apply map_eq. intros j. rewrite !index_union_lookup, lookup_empty.
  by destruct (a !! j).
Qed.

Lemma foldl_index_union (r : HostnameIndex) (l : list HostnameIndex) :
  foldl index_union r l = index_union r (foldr index_union ∅ l).
Proof.
  revert r. induction l as [|p l IH]; intros r; cbn [foldl foldr].
  - by rewrite index_union_comm, index_union_empty_l.
  - by rewrite IH, index_union_assoc.
Qed.

Lemma aggregate_union (ord : MapOrder) (l : list HostnameIndex) :
  aggregate ord l = foldr index_union ∅ l.
Proof.
  unfold aggregate.
  assert (∀ r, foldl (merge_into ord) r l = foldl index_union r l) as ->.
  { induction l as [|p l IH]; intros r; [done|]. cbn [foldl].
    by rewrite merge_into_union, IH. }
  by rewrite foldl_index_union, index_union_empty_l.
Qed.

(** A partial already in the list is absorbed. *)
Lemma foldr_index_union_absorb (p : HostnameIndex) (l : list HostnameIndex) :
  p ∈ l → index_union p (foldr index_union ∅ l) = foldr index_union ∅ l.
Proof.
  induction l as [|q l IH]; [by intros ?%elem_of_nil|].
  intros [->|Hin]%elem_of_cons; cbn [foldr].
  - by rewrite <- index_union_assoc, index_union_idemp.
  - rewrite <- index_union_assoc, (index_union_comm p q), index_union_assoc.
    by rewrite IH.
Qed.

Lemma foldr_index_union_subseteq (l1 l2 : list HostnameIndex) :
  (∀ p, p ∈ l1 → p ∈ l2) →
  index_union (foldr index_union ∅ l1) (foldr index_union ∅ l2) = foldr index_union ∅ l2.
Proof.
  induction l1 as [|p l1 IH]; intros Hsub; cbn [foldr].
  - apply index_union_empty_l.
  - rewrite index_union_assoc, IH by (intros q Hq; apply Hsub; by right).
    apply foldr_index_union_absorb, Hsub. by left.
Qed.

Lemma aggregate_same_elements (ord1 ord2 : MapOrder) (l1 l2 : list HostnameIndex) :
  (∀ p, p ∈ l1 ↔ p ∈ l2) → aggregate ord1 l1 = aggregate ord2 l2.
Proof.
  intros Hl. rewrite !aggregate_union.
  rewrite <- (foldr_index_union_subseteq l1 l2) by (intros p; apply Hl).
  rewrite <- (foldr_index_union_subseteq l2 l1) at 1 by (intros p; apply Hl).
  apply index_union_comm.
Qed.

(** C2: the mapping that the merge loop builds from a sequence of partial
    indexes is the same for two sequences that are permutations of each
    other, and more generally for two sequences with the same partials,
    repeated or not, and it does not depend on the order in which [range]
    walks the maps; merging two partials into an index commutes, and
    merging the same partial twice is merging it once. *)
Theorem aggregate_order_independent (ord1 ord2 : MapOrder) :
  (∀ l1 l2, l1 ≡ₚ l2 → aggregate ord1 l1 = aggregate ord2 l2) ∧
  (∀ l1 l2, (∀ p, p ∈ l1 ↔ p ∈ l2) → aggregate ord1 l1 = aggregate ord2 l2) ∧
  (∀ p l, aggregate ord1 (p :: p :: l) = aggregate ord2 (p :: l)) ∧
  (∀ results a b,
     merge_into ord1 (merge_into ord1 results a) b =
     merge_into ord2 (merge_into ord2 results b) a) ∧
  (∀ results a,
     merge_into ord1 (merge_into ord1 results a) a = merge_into ord2 results a).
Proof.
  split; [|split; [|split; [|split]]].
  - intros l1 l2 Hp. apply aggregate_same_elements. intros p. by rewrite Hp.
  - apply aggregate_same_elements.
  - intros p l. apply aggregate_same_elements. intros q. set_solver.
  - intros results a b. rewrite !merge_into_union.
    rewrite !index_union_assoc. by rewrite (index_union_comm a b).
  - intros results a. rewrite !merge_into_union.
    by rewrite index_union_assoc, index_union_idemp.
Qed.

End Aggregation.

(** ** What [printResults] renders *)

Section Rendering.
Context `{L : Libraries} (ord : MapOrder).
Import strings strings_facts.

Lemma member_put_ensure (acc : HostnameIndex) (ip' h' ip h : string) :
  member (put (ensure acc ip') ip' h') ip h ↔ member acc ip h ∨ (ip = ip' ∧ h = h').
Proof.
  unfold member. rewrite put_lookup, ensure_lookup.
  destruct (decide (ip' = ip)) as [->|Hne].
  - rewrite decide_True by done. cbn. destruct (acc !! ip) as [s|]; cbn.
    + split.
      * intros (s' & [= <-] & [->%elem_of_singleton|Hin]%elem_of_union); eauto.
      * intros [(s' & [= <-] & Hin)|[_ ->]]; eexists; (split; [done|]); set_solver.
    + split.
      * intros (s' & [= <-] & Hin). right. set_solver.
      * intros [(s' & [=] & _)|[_ ->]]. eexists. split; [done|]. set_solver.
  - rewrite ensure_lookup, decide_False by done. naive_solver.
Qed.

Lemma member_foldl_host (acc : HostnameIndex) (h' : string) (ipl : list string)
    (ip h : string) :
  member (foldl (λ hostsResult ip', put (ensure hostsResult ip') ip' h') acc ipl) ip h ↔
  member acc ip h ∨ (h = h' ∧ ip ∈ ipl).
Proof.
  revert acc. induction ipl as [|ip' ipl IH]; intros acc; cbn [foldl].
  - split; [by left|]. intros [?|[_ ?%elem_of_nil]]; done.
  - rewrite IH, member_put_ensure, elem_of_cons. naive_solver.
Qed.

Lemma member_invert_entry (filter : string) (re : option Regexp) (acc : HostnameIndex)
    (h' : string) (ips' : gset string) (ip h : string) :
  member (invert_entry ord filter re acc (h', ips')) ip h ↔
  member acc ip h ∨ (h = h' ∧ selected filter re h' = true ∧ ip ∈ ips').
Proof.
  unfold invert_entry. cbn [fst snd]. destruct (selected filter re h').
  - rewrite member_foldl_host, range_set_elem. naive_solver.
  - naive_solver.
Qed.

Lemma member_foldl_invert (filter : string) (re : option Regexp) (acc : HostnameIndex)
    (l : list (string * gset string)) (ip h : string) :
  member (foldl (invert_entry ord filter re) acc l) ip h ↔
  member acc ip h ∨ ∃ ips, (h, ips) ∈ l ∧ selected filter re h = true ∧ ip ∈ ips.
Proof.
  revert acc. induction l as [|[h' ips'] l IH]; intros acc; cbn [foldl].
  - split; [by left|]. intros [?|(ips & ?%elem_of_nil & _)]; done.
  - rewrite IH, member_invert_entry. split.
    + intros [[?|(-> & ? & ?)]|(ips & ? & ? & ?)].
      * by left.
      * right. exists ips'. split; [left|done].
      * right. exists ips. split; [by right|done].
    + intros [?|(ips & [[= -> ->]|?]%elem_of_cons & ? & ?)].
      * by left; left.
      * left. by right.
      * right. by exists ips.
Qed.

Lemma filtered_lookup (filter : string) (re : option Regexp) (results : HostnameIndex)
    (h : string) (ips : gset string) :
  filtered filter re results !! h = Some ips ↔
  results !! h = Some ips ∧ selected filter re h = true.
Proof. unfold filtered. by rewrite map_lookup_filter_Some. Qed.

(** The inverted index holds [h] under [ip] exactly when the filtered index
    holds [ip] under [h]. *)
Lemma member_invert (filter : string) (re : option Regexp) (results : HostnameIndex)
    (ip h : string) :
  member (invert ord filter re results) ip h ↔ member (filtered filter re results) h ip.
Proof.
  unfold invert. rewrite member_foldl_invert. unfold member at 1 2.
  setoid_rewrite lookup_empty. setoid_rewrite range_idx_elem.
  setoid_rewrite filtered_lookup. naive_solver.
Qed.

Lemma rows_hosts_elem (filter : string) (re : option Regexp) (results : HostnameIndex)
    (ip : string) (hl : list string) :
  (ip, hl) ∈ rows ord results true filter re ↔
  ∃ hs, invert ord filter re results !! ip = Some hs ∧ hl = range_set ord hs.
Proof.
  unfold rows. rewrite list_elem_of_fmap. split.
  - intros ([ip' hs] & [= -> ->] & Hin%range_idx_elem). eauto.
  - intros (hs & Hin & ->). exists (ip, hs). split; [done|]. by apply range_idx_elem.
Qed.

Lemma rows_default_elem (filter : string) (re : option Regexp) (results : HostnameIndex)
    (h : string) (ipl : list string) :
  (h, ipl) ∈ rows ord results false filter re ↔
  ∃ ips, filtered filter re results !! h = Some ips ∧ ipl = range_set ord ips.
Proof.
  unfold rows. rewrite list_elem_of_fmap. setoid_rewrite filtered_lookup.
  setoid_rewrite list_elem_of_In. setoid_rewrite filter_In.
  setoid_rewrite <- list_elem_of_In. split.
  - intros ([h' ips] & [= -> ->] & Hin%range_idx_elem & Hsel). eauto.
  - intros (ips & [Hin Hsel] & ->). exists (h, ips). split; [done|].
    split; [by apply range_idx_elem | done].
Qed.

(** C4: in hosts mode, with a usable filter, [printResults] writes one line
    [ip hostnames] per row; for every hostname of the filtered index and
    every IP it holds there is a row whose first field is that IP and
    whose joined list holds the hostname; and every hostname of the list
    of a row is a hostname of the filtered index, which holds the row's
    IP. *)
Theorem hosts_mode_inverts (results : HostnameIndex) (fqdn : bool)
    (filter : string) (re : option Regexp) (tr : list event) :
  compile_filter filter tr = (Done re, tr) →
  let rws := rows ord results true filter re in
  printResults ord results true fqdn filter tr =
    (Done tt, tr ++ map (λ row, EvPrint (fst row +:+ " " +:+ Join (snd row) " ")) rws) ∧
  (∀ hostname ips ip,
     filtered filter re results !! hostname = Some ips → ip ∈ ips →
     ∃ hostnameList, (ip, hostnameList) ∈ rws ∧ hostname ∈ hostnameList) ∧
  (∀ ip hostnameList hostname,
     (ip, hostnameList) ∈ rws → hostname ∈ hostnameList →
     ∃ ips, filtered filter re results !! hostname = Some ips ∧ ip ∈ ips).
Proof.
  intros Hre rws. split; [|split].
  - by rewrite (printResults_rows ord results true fqdn filter re tr Hre).
  - intros hostname ips ip Hf Hip.
    assert (member (invert ord filter re results) ip hostname) as (hs & Hhs & Hin).
    { apply member_invert. by exists ips. }
    exists (range_set ord hs). split.
    + apply rows_hosts_elem. eauto.
    + by apply range_set_elem.
  - intros ip hostnameList hostname (hs & Hhs & ->)%rows_hosts_elem Hin%range_set_elem.
    apply (member_invert filter re results ip hostname). by exists hs.
Qed.

Lemma rendered_hosts (filter : string) (re : option Regexp) (results : HostnameIndex)
    (h : string) :
  h ∈ rendered_hostnames true (rows ord results true filter re) ↔
  ∃ ip, member (filtered filter re results) h ip.
Proof.
  unfold rendered_hostnames. rewrite list_elem_of_In, in_concat.
  setoid_rewrite <- list_elem_of_In. setoid_rewrite <- member_invert. split.
  - intros (hl & ([ip hl'] & Heq & (hs & Hhs & ->)%rows_hosts_elem)%list_elem_of_fmap & Hin).
    cbn in Heq. subst hl. exists ip, hs. split; [done|]. by apply (range_set_elem ord).
  - intros (ip & hs & Hhs & Hin). exists (range_set ord hs). split.
    + apply list_elem_of_fmap. exists (ip, range_set ord hs). split; [done|].
      apply rows_hosts_elem. eauto.
    + by apply range_set_elem.
Qed.

Lemma rendered_default (filter : string) (re : option Regexp) (results : HostnameIndex)
    (h : string) :
  h ∈ rendered_hostnames false (rows ord results false filter re) ↔
  is_Some (filtered filter re results !! h).
Proof.
  unfold rendered_hostnames. rewrite list_elem_of_fmap. split.
  - intros ([h' ipl] & -> & (ips & Hf & _)%rows_default_elem). by exists ips.
  - intros [ips Hf]. exists (h, range_set ord ips). split; [done|].
    apply rows_default_elem. eauto.
Qed.

(** A hostname of the index is rendered exactly when the filter selects it
    (in hosts mode: when, besides, it has an IP). *)
Lemma rendered_iff_selected (results : HostnameIndex) (hosts : bool) (filter : string)
    (re : option Regexp) (H : string) (ips : gset string) :
  results !! H = Some ips → (hosts = true → ips ≠ ∅) →
  H ∈ rendered_hostnames hosts (rows ord results hosts filter re) ↔
  selected filter re H = true.
Proof.
  intros HH Hne. destruct hosts.
  - rewrite rendered_hosts. unfold member. setoid_rewrite filtered_lookup. split.
    + by intros (ip & s & [_ ?] & _).
    + intros Hsel. destruct (set_choose_L ips) as [ip Hip]; [by apply Hne|]. eauto.
  - rewrite rendered_default. unfold is_Some. setoid_rewrite filtered_lookup.
    naive_solver.
Qed.

End Rendering.

(** ** Reading the default mode back *)

Module reparse_facts.
Import strings strings_facts.

Lemma prefix_nil (s : string) : String.prefix "" s = true.
Proof. by destruct s. Qed.

Lemma prefix_cons (c a : ascii) (s1 s2 : string) :
  String.prefix (String c s1) (String a s2) = bool_decide (c = a) && String.prefix s1 s2.
Proof.
  cbn [String.prefix]. destruct (Ascii.ascii_dec c a) as [->|Hne].
  - by rewrite bool_decide_eq_true_2.
  - by rewrite bool_decide_eq_false_2.
Qed.

Lemma prefix_colon_app (c : ascii) (h rest : string) :
  String.prefix ": " (String c h) = false →
  String.prefix ": " (String c (h +:+ ": " +:+ rest)) = false.
Proof.
  rewrite !prefix_cons. destruct (bool_decide (":"%char = c)); [|done].
  cbn [andb]. destruct h as [|d h].
  - intros _. change ("" +:+ ": " +:+ rest) with (String ":" (String " " rest)).
    rewrite prefix_cons. by rewrite bool_decide_eq_false_2.
  - change (String d h +:+ ": " +:+ rest) with (String d (h +:+ ": " +:+ rest)).
    rewrite !prefix_cons. by rewrite !prefix_nil.
Qed.

Lemma Cut_cons (c : ascii) (s sep : string) :
  Cut (String c s) sep =
  if String.prefix sep (String c s)
  then Some ("", drop_bytes (String.length sep) (String c s))
  else match Cut s sep with
       | Some (before, after) => Some (String c before, after)
       | None => None
       end.
Proof. done. Qed.

(** A text without [": "] is what [Cut] finds before the first [": "]. *)
Lemma Cut_colon (h rest : string) :
  Contains h ": " = false → Cut (h +:+ ": " +:+ rest) ": " = Some (h, rest).
Proof.
  induction h as [|c h IH]; intros Hc.
  - change ("" +:+ ": " +:+ rest) with (String ":" (String " " rest)).
    rewrite Cut_cons, !prefix_cons, prefix_nil. by rewrite !bool_decide_eq_true_2.
  - apply Contains_cons in Hc as [Hp Hc].
    change (String c h +:+ ": " +:+ rest) with (String c (h +:+ ": " +:+ rest)).
    by rewrite Cut_cons, prefix_colon_app, IH.
Qed.

Lemma Split_app_space (a rest : string) :
  Contains a " " = false → Split (a +:+ " " +:+ rest) " " = a :: Split rest " ".
Proof.
  induction a as [|x a IH]; intros Hc.
  - change ("" +:+ " " +:+ rest) with (String " " rest).
    rewrite Split_byte_cons. by rewrite bool_decide_eq_true_2.
  - apply Contains_cons in Hc as [Hp Hc]. rewrite prefix_byte in Hp.
    change (String x a +:+ " " +:+ rest) with (String x (a +:+ " " +:+ rest)).
    rewrite Split_byte_cons, Hp. by rewrite IH.
Qed.

(** Words without a space, joined by spaces, split back into the words. *)
Lemma Split_Join_space (words : list string) :
  words ≠ [] → Forall (λ w, Contains w " " = false) words →
  Split (Join words " ") " " = words.
Proof.
  induction words as [|a words IH]; [done|]. intros _ [Ha Hw]%Forall_cons.
  destruct words as [|b words].
  - by apply Split_no_sep.
  - change (Join (a :: b :: words) " ") with (a +:+ " " +:+ Join (b :: words) " ").
    rewrite Split_app_space by done. f_equal. by apply IH.
Qed.

Lemma reparse_line_default (h : string) (words : list string) :
  Contains h ": " = false → words ≠ [] →
  Forall (λ w, Contains w " " = false) words →
  reparse_line (h +:+ ": " +:+ Join words " ") = Some (h, list_to_set words).
Proof.
  intros Hh Hne Hw. unfold reparse_line.
  by rewrite Cut_colon, Split_Join_space.
Qed.

End reparse_facts.

Section RoundTrip.
Context `{L : Libraries} (ord : MapOrder).
Import strings strings_facts reparse_facts.

(** The entries that the default loop prints are those of the filtered index. *)
Lemma kept_entries (filter : string) (re : option Regexp) (results : HostnameIndex) :
  List.filter (λ kv, selected filter re kv.1) (range_idx ord results)
  ≡ₚ map_to_list (filtered filter re results).
Proof.
  apply NoDup_Permutation.
  - apply NoDup_ListNoDup, List.NoDup_filter, NoDup_ListNoDup.
    eapply NoDup_fmap_1, range_idx_NoDup.
  - apply NoDup_map_to_list.
  - intros [h ips]. rewrite elem_of_map_to_list, filtered_lookup.
    rewrite list_elem_of_In, filter_In, <- list_elem_of_In.
    by rewrite range_idx_elem.
Qed.

(** The default mode has one row per hostname of the filtered index. *)
Lemma rows_default_keys (results : HostnameIndex) (filter : string) (re : option Regexp) :
  (rows ord results false filter re).*1 ≡ₚ (map_to_list (filtered filter re results)).*1.
Proof.
  unfold rows. rewrite <- list_fmap_compose.
  by rewrite <- (kept_entries filter re results).
Qed.

(** The lines of the default mode, each taken as one piece: when no
    hostname of the filtered index holds [": "], no IP set is empty and no
    IP holds a space, splitting each line on [": "] and the rest on spaces
    gives back the filtered index. *)
Lemma default_lines_round_trip (results : HostnameIndex) (filter : string)
    (re : option Regexp) :
  (∀ h ips, filtered filter re results !! h = Some ips →
     Contains h ": " = false ∧ ips ≠ ∅ ∧ ∀ ip, ip ∈ ips → Contains ip " " = false) →
  reparse_default (map (λ row, fst row +:+ ": " +:+ Join (snd row) " ")
                       (rows ord results false filter re)) =
  Some (filtered filter re results).
Proof.
  intros Hok. pose proof (kept_entries filter re results) as Hkept.
  unfold rows. set (kept := List.filter _ _) in *.
  unfold reparse_default.
  assert (mapM reparse_line
            (map (λ row, row.1 +:+ ": " +:+ Join row.2 " ")
               (map (λ kv, (kv.1, range_set ord kv.2)) kept)) = Some kept) as ->.
  { apply mapM_Some_2. rewrite map_map. apply Forall2_fmap_l.
    apply Forall_Forall2_diag, Forall_forall. intros [h ips] Hin. cbn [fst snd compose].
    assert (filtered filter re results !! h = Some ips) as Hf.
    { apply elem_of_map_to_list. by rewrite <- Hkept. }
    destruct (Hok h ips Hf) as (Hh & Hne & Hips).
    rewrite reparse_line_default, range_set_to_set; [done..| |].
    - intros Hnil. apply Hne, set_eq. intros ip.
      rewrite <- (range_set_elem ord), Hnil. set_solver.
    - apply Forall_forall. intros ip Hip%range_set_elem. by apply Hips. }
  cbn. f_equal. rewrite <- (list_to_map_to_list (filtered filter re results)).
  apply list_to_map_proper; [|done]. rewrite Hkept. apply NoDup_fst_map_to_list.
Qed.

End RoundTrip.

(** ** The indexes that the program builds *)

Section BuiltIndex.
Context `{L : Libraries} (ord : MapOrder).

Lemma no_empty_set_empty : no_empty_set ∅.
Proof. intros h ips. by rewrite lookup_empty. Qed.

Lemma add_anchor_no_empty_set (m : HostnameIndex) (a : string * string) :
  no_empty_set m → no_empty_set (add_anchor m a).
Proof.
  intros Hm j ips. unfold add_anchor. cbv zeta. rewrite put_lookup.
  case_decide as Hj.
  - rewrite ensure_lookup, decide_True by done. intros [= <-]. set_solver.
  - rewrite ensure_lookup, decide_False by done. apply Hm.
Qed.

Lemma index_union_no_empty_set (a b : HostnameIndex) :
  no_empty_set a → no_empty_set b → no_empty_set (index_union a b).
Proof.
  intros Ha Hb j ips. rewrite index_union_lookup.
  destruct (a !! j) as [s|] eqn:Hs, (b !! j) as [t|] eqn:Ht; cbn; intros [= <-].
  - specialize (Ha j s Hs). set_solver.
  - by apply (Ha j).
  - by apply (Hb j).
Qed.

Lemma searchCIDR_no_empty_set (cidr : string) (tr : list event) (res : HostnameIndex) :
  fst (searchCIDR cidr tr) = Done res → no_empty_set res.
Proof.
  destruct (NewRequest_err (robtexURL +:+ strings.Replace cidr "/" "-" (-1)))
    as [err|] eqn:Hreq.
  - by rewrite (searchCIDR_refused _ _ _ Hreq).
  - rewrite (searchCIDR_built _ _ Hreq). cbn [fst]. intros [= <-].
    destruct (client_Do tr _) as [[status body]|]; [|apply no_empty_set_empty].
    destruct (negb (status =? StatusOK)); [apply no_empty_set_empty|].
    destruct (NewDocumentFromReader body) as [doc|]; [|apply no_empty_set_empty].
    generalize (dns_anchors doc). intros anchors.
    assert (∀ m, no_empty_set m → no_empty_set (foldl add_anchor m anchors)) as Hfold.
    { induction anchors as [|a anchors IH]; intros m Hm; [done|].
      cbn [foldl]. by apply IH, add_anchor_no_empty_set. }
    apply Hfold, no_empty_set_empty.
Qed.

(** The loop over the CIDRs merges, in order, what the calls of
    [searchCIDR] returned, and keeps every IP set non-empty. *)
Lemma cidr_loop_built (cidrs : list string) (results r : HostnameIndex)
    (tr tr' : list event) :
  cidr_loop ord cidrs results tr = (Done r, tr') →
  ∃ partials, length partials = length cidrs ∧
    Forall no_empty_set partials ∧
    r = foldl (merge_into ord) results partials.
Proof.
  revert results tr. induction cidrs as [|cidr rest IH]; intros results tr.
  - intros [= <- <-]. by exists [].
  - cbn [cidr_loop]. unfold bind.
    pose proof (searchCIDR_no_empty_set cidr tr) as Hres.
    destruct (searchCIDR cidr tr) as [[res|msg] tr1]; [|done].
    intros (partials & Hlen & Hne & ->)%IH. exists (res :: partials).
    split; [cbn; by rewrite Hlen|]. split; [|done].
    apply Forall_cons. split; [by apply Hres | done].
Qed.

Lemma cidr_loop_no_empty_set (cidrs : list string) (results r : HostnameIndex)
    (tr tr' : list event) :
  no_empty_set results →
  cidr_loop ord cidrs results tr = (Done r, tr') → no_empty_set r.
Proof.
  intros Hresults (partials & _ & Hne & ->)%cidr_loop_built.
  revert results Hresults. induction Hne as [|p partials Hp _ IH]; intros results Hr; [done|].
  cbn [foldl]. apply IH. rewrite merge_into_union. by apply index_union_no_empty_set.
Qed.

Lemma asn_loop_no_empty_set (asns : list string) (results r : HostnameIndex)
    (tr tr' : list event) :
  no_empty_set results →
  asn_loop ord asns results tr = (Done r, tr') → no_empty_set r.
Proof.
  revert results tr. induction asns as [|asn rest IH]; intros results tr Hresults.
  - by intros [= <- <-].
  - cbn [asn_loop]. unfold bind.
    destruct (searchASN asn tr) as [[ranges|msg] tr1]; [|done].
    destruct (cidr_loop ord ranges results tr1) as [[results1|msg] tr2] eqn:Hloop; [|done].
    apply IH. by eapply cidr_loop_no_empty_set.
Qed.

(** The index that [Action] hands to [printResults] when only CIDRs are
    given is the aggregate of what the calls of [searchCIDR] returned. *)
Lemma cidr_loop_aggregate (cidrs : list string) (r : HostnameIndex) (tr tr' : list event) :
  cidr_loop ord cidrs ∅ tr = (Done r, tr') →
  ∃ partials, length partials = length cidrs ∧ r = aggregate ord partials.
Proof. intros (partials & Hlen & _ & ->)%cidr_loop_built. by exists partials. Qed.

(** On an index that the program built, in each of the three modes, a
    hostname of the index is rendered exactly when the filter selects it. *)
Lemma built_index_rendered (cidrs : list string) (results : HostnameIndex)
    (tr tr' : list event) (hosts : bool) (filter : string) (re : option Regexp)
    (H : string) :
  cidr_loop ord cidrs ∅ tr = (Done results, tr') →
  is_Some (results !! H) →
  H ∈ rendered_hostnames hosts (rows ord results hosts filter re) ↔
  selected filter re H = true.
Proof.
  intros Hloop [ips HH]. apply (rendered_iff_selected ord results hosts filter re H ips HH).
  intros _. eapply cidr_loop_no_empty_set; [apply no_empty_set_empty|exact Hloop|exact HH].
Qed.

End BuiltIndex.

(** ** Standard output as a text *)

Module text_facts.
Import strings strings_facts.

Lemma Split_app_byte (c : ascii) (a rest : string) :
  Contains a (String c "") = false →
  Split (a +:+ String c "" +:+ rest) (String c "") = a :: Split rest (String c "").
Proof.
  induction a as [|x a IH]; intros Hc.
  - change ("" +:+ String c "" +:+ rest) with (String c rest).
    rewrite Split_byte_cons. by rewrite bool_decide_eq_true_2.
  - apply Contains_cons in Hc as [Hp Hc]. rewrite prefix_byte in Hp.
    change (String x a +:+ String c "" +:+ rest) with (String x (a +:+ String c "" +:+ rest)).
    rewrite Split_byte_cons, Hp. by rewrite IH.
Qed.

Lemma Contains_app_byte (c : ascii) (a b : string) :
  Contains a (String c "") = false → Contains b (String c "") = false →
  Contains (a +:+ b) (String c "") = false.
Proof.
  intros Ha Hb. induction a as [|x a IH]; [done|].
  apply Contains_cons in Ha as [Hp Ha]. rewrite prefix_byte in Hp.
  change (String x a +:+ b) with (String x (a +:+ b)).
  change (String.prefix (String c "") (String x (a +:+ b)) || Contains (a +:+ b) (String c "") = false).
  rewrite prefix_byte, Hp. by apply IH.
Qed.

Lemma Contains_Join_byte (c : ascii) (sep : string) (elems : list string) :
  Contains sep (String c "") = false →
  Forall (λ a, Contains a (String c "") = false) elems →
  Contains (Join elems sep) (String c "") = false.
Proof.
  intros Hsep. induction 1 as [|a elems Ha Helems IH]; [done|].
  destruct elems as [|b elems]; [done|].
  change (Join (a :: b :: elems) sep) with (a +:+ sep +:+ Join (b :: elems) sep).
  by repeat apply Contains_app_byte.
Qed.

(** The text that the lines make splits back into the lines, when no line
    holds a line feed. *)
Lemma text_lines_stdout_text (lines : list string) :
  Forall (λ line, Contains line line_feed = false) lines →
  text_lines (stdout_text (map EvPrint lines)) = lines.
Proof.
  intros Hlines. unfold text_lines, stdout_text. rewrite stdout_prints.
  assert (Split (foldr (λ line text, line +:+ line_feed +:+ text) "" lines) line_feed
          = lines ++ [""]) as ->.
  { induction Hlines as [|line lines Hline _ IH]; [done|].
    change (Split (line +:+ String "010" "" +:+
                   foldr (λ line text, line +:+ line_feed +:+ text) "" lines)
                  (String "010" "") = (line :: lines) ++ [""]).
    rewrite Split_app_byte by exact Hline. fold line_feed. by rewrite IH. }
  apply removelast_last.
Qed.

End text_facts.

(** ** What [printResults] does with the indexes it receives *)

Section PrintedIndex.
Context `{L : Libraries} (ord : MapOrder).
Import strings strings_facts text_facts.

(** In an index that [printResults] receives every hostname has an IP. *)
Lemma handed_no_empty_set (results : HostnameIndex) :
  handed_to_printResults ord results → no_empty_set results.
Proof.
  intros (pieces & tr & tr1 & [Hloop|Hloop]).
  - eapply cidr_loop_no_empty_set; [apply no_empty_set_empty | exact Hloop].
  - eapply asn_loop_no_empty_set; [apply no_empty_set_empty | exact Hloop].
Qed.

(** C3: for every index that [printResults] receives (one that an
    aggregation loop of [Action] built), every hostname [H] of it, both
    mode flags and so each of the three modes: with no filter supplied,
    [printResults] writes its rows and [H] is a hostname of one of them;
    with a filter that compiles to [P], it writes its rows and [H] is a
    hostname of one of them if and only if [P] matches [H]. *)
Theorem filter_decides_rendering (results : HostnameIndex) (hosts fqdn : bool)
    (filter : string) (tr : list event) (H : string) :
  handed_to_printResults ord results →
  is_Some (results !! H) →
  (filter = "" →
   printResults ord results hosts fqdn filter tr =
     (Done tt, tr ++ map (λ row, EvPrint (format_row hosts fqdn row))
                         (rows ord results hosts filter None)) ∧
   H ∈ rendered_hostnames hosts (rows ord results hosts filter None)) ∧
  (∀ P, filter ≠ "" → regexp_Compile filter = inl P →
   printResults ord results hosts fqdn filter tr =
     (Done tt, tr ++ map (λ row, EvPrint (format_row hosts fqdn row))
                         (rows ord results hosts filter (Some P))) ∧
   (H ∈ rendered_hostnames hosts (rows ord results hosts filter (Some P)) ↔
    MatchString P H = true)).
Proof.
  intros Hbuilt%handed_no_empty_set [ips HH].
  assert (hosts = true → ips ≠ ∅) as Hne by (intros _; by apply (Hbuilt H)).
  split.
  - intros ->. split.
    + apply printResults_rows. unfold compile_filter. by rewrite bool_decide_eq_true_2.
    + by rewrite (rendered_iff_selected ord results hosts "" None H ips).
  - intros P Hf HP. split.
    + apply printResults_rows. unfold compile_filter.
      rewrite bool_decide_eq_false_2 by done. by rewrite HP.
    + rewrite (rendered_iff_selected ord results hosts filter (Some P) H ips) by done.
      unfold selected. by rewrite bool_decide_eq_false_2.
Qed.

(** C5 (as amended): for every index that [printResults] receives, when no
    hostname of the filtered index holds [": "] or a line feed and no IP of
    it holds a space or a line feed, the default mode writes one line
    [hostname: ip1 ip2] per hostname of the filtered index; the text
    written has these lines and no other, and splitting each line of the
    text at the first [": "] and the rest on spaces gives back exactly the
    filtered index, the IPs of a line taken as a set. *)
Theorem default_mode_round_trip (results : HostnameIndex) (filter : string)
    (re : option Regexp) (tr : list event) :
  handed_to_printResults ord results →
  compile_filter filter tr = (Done re, tr) →
  (∀ h ips, filtered filter re results !! h = Some ips →
     Contains h ": " = false ∧ Contains h line_feed = false ∧
     ∀ ip, ip ∈ ips → Contains ip " " = false ∧ Contains ip line_feed = false) →
  ∃ rws, rws.*1 ≡ₚ (map_to_list (filtered filter re results)).*1 ∧
    let lines := map (λ row, fst row +:+ ": " +:+ Join (snd row) " ") rws in
    printResults ord results false false filter tr = (Done tt, tr ++ map EvPrint lines) ∧
    text_lines (stdout_text (map EvPrint lines)) = lines ∧
    reparse_default (text_lines (stdout_text (map EvPrint lines))) =
      Some (filtered filter re results).
Proof.
  intros Hbuilt%handed_no_empty_set Hre Hok.
  exists (rows ord results false filter re). cbv zeta.
  set (lines := map (λ row, row.1 +:+ ": " +:+ Join row.2 " ")
                    (rows ord results false filter re)).
  assert (text_lines (stdout_text (map EvPrint lines)) = lines) as Htext.
  { apply text_lines_stdout_text, Forall_forall. intros line Hin.
    apply list_elem_of_fmap in Hin as ([h ipl] & -> & Hrow). cbn [fst snd].
    unfold rows in Hrow. apply list_elem_of_fmap in Hrow as ([h' ips] & [= -> ->] & Hin).
    cbn [fst snd] in *.
    assert (filtered filter re results !! h' = Some ips) as Hf.
    { apply elem_of_map_to_list. by rewrite <- (kept_entries ord filter re results). }
    destruct (Hok h' ips Hf) as (_ & Hh & Hips).
    apply (Contains_app_byte "010" h' _ Hh).
    apply (Contains_app_byte "010" ": " _ eq_refl).
    apply (Contains_Join_byte "010" " " _ eq_refl).
    apply Forall_forall. intros ip Hip%range_set_elem. by apply Hips. }
  split; [|split; [|split]].
  - apply rows_default_keys.
  - rewrite (printResults_rows ord results false false filter re tr Hre).
    unfold lines. by rewrite (map_map _ EvPrint).
  - exact Htext.
  - rewrite Htext. apply default_lines_round_trip.
    intros h ips Hf. destruct (Hok h ips Hf) as (Hh & _ & Hips).
    split; [done|]. split; [|intros ip Hip; by apply Hips].
    apply filtered_lookup in Hf as [Hl _]. by apply (Hbuilt h).
Qed.

End PrintedIndex.

(** ** The theorems at work in the example world *)

Module Runs.
Import Example.

(** C1, counterexample: with both [--cidr] and [--asn] non-empty the
    invalid-parameters error is not reported: the CIDR is looked up, the
    report is written and the exit status is 0. *)
Lemma both_flags_no_error :
  flag_cidr both_flags = "1.2.3.0/24" ∧ flag_asn both_flags = "AS64500" ∧
  run both_flags =
    (Done tt, [EvGet "https://www.robtex.com/cidr/1.2.3.0-24";
               EvPrint "mail.example.com: ";
               EvPrint "host1.example.com: 1.2.3.4"]) ∧
  exit_status (fst (run both_flags)) = 0.
Proof. repeat split; vm_compute; reflexivity. Qed.

(** C1 on the invocation with no flag: the error, and exit status 1. *)
Lemma invalid_parameters_witness :
  main (L:=world) canonical_order no_flags [] = (Fatal invalid_parameters, []) ∧
  exit_status (fst (main (L:=world) canonical_order no_flags [])) = 1.
Proof.
  apply (invalid_parameters_iff (L:=world) canonical_order no_flags []).
  split; reflexivity.
Defined.

(** C2 on two sequences with the same partials, in another order and with
    one repeated. *)
Lemma aggregate_witness :
  aggregate canonical_order [partial1; partial2] =
  aggregate canonical_order [partial2; partial1; partial2].
Proof.
  refine (proj1 (proj2 (aggregate_order_independent canonical_order canonical_order))
            [partial1; partial2] [partial2; partial1; partial2] _).
  intros p. rewrite !elem_of_cons, !elem_of_nil. tauto.
Defined.

(** The example of the specification: the two partial results aggregate
    to the index with both hostnames. *)
Lemma aggregate_two_hosts : aggregate canonical_order [partial1; partial2] = two_hosts.
Proof. vm_compute. reflexivity. Qed.

(** The examples of the specification: fqdn mode writes the two hostnames,
    hosts mode one line per IP, a filter keeps the hostnames it matches. *)
Lemma two_hosts_fqdn :
  printResults (L:=world) canonical_order two_hosts false true "" [] =
  (Done tt, [EvPrint "host1.example.com"; EvPrint "host2.example.com"]).
Proof. vm_compute. reflexivity. Qed.

Lemma two_hosts_hosts :
  printResults (L:=world) canonical_order two_hosts true false "" [] =
  (Done tt, [EvPrint "1.2.3.5 host2.example.com"; EvPrint "1.2.3.4 host1.example.com"]).
Proof. vm_compute. reflexivity. Qed.

Lemma two_hosts_filtered :
  printResults (L:=world) canonical_order two_hosts false false "host2" [] =
  (Done tt, [EvPrint "host2.example.com: 1.2.3.5"]).
Proof. vm_compute. reflexivity. Qed.

(** The type of [printResults] also takes an index in which a hostname
    has no IP, which no run hands to it: in hosts mode such a hostname is
    on no line. *)
Lemma hosts_mode_drops_hostname_without_ip :
  no_ip !! "host.example.com" = Some ∅ ∧
  printResults (L:=world) canonical_order no_ip true false "" [] = (Done tt, []) ∧
  rendered_hostnames true (rows (L:=world) canonical_order no_ip true "" None) = [].
Proof. repeat split; vm_compute; reflexivity. Qed.

(** C3 on the index that the run of [-a AS64500,AS64502] builds, in hosts
    mode, with the filter ["host1"] and the hostname ["host2.example.com"]. *)
Lemma filter_decides_rendering_witness :
  (printResults (L:=world) canonical_order asn_bad_filter_index true false "host1" [] =
     (Done tt, [] ++ map (λ row, EvPrint (format_row true false row))
                         (rows (L:=world) canonical_order asn_bad_filter_index true "host1"
                               (Some "host1"))) ∧
   ("host2.example.com" ∈
      rendered_hostnames true
        (rows (L:=world) canonical_order asn_bad_filter_index true "host1" (Some "host1")) ↔
    MatchString (Libraries:=world) "host1" "host2.example.com" = true)).
Proof.
  refine (proj2 (filter_decides_rendering (L:=world) canonical_order asn_bad_filter_index
                   true false "host1" [] "host2.example.com" _ _) "host1" _ _).
  - exists (strings.Split "AS64500,AS64502" ","), [],
      (snd (asn_loop (L:=world) canonical_order (strings.Split "AS64500,AS64502" ",") ∅ [])).
    right. vm_compute. reflexivity.
  - exists {[ "1.2.3.5" ]}. vm_compute. reflexivity.
  - discriminate.
  - reflexivity.
Defined.

(** C4 on the index of the specification: the line of ["1.2.3.4"] holds
    ["host1.example.com"]. *)
Lemma hosts_mode_inverts_witness :
  ∃ hostnameList,
    ("1.2.3.4", hostnameList) ∈ rows (L:=world) canonical_order two_hosts true "" None ∧
    "host1.example.com" ∈ hostnameList.
Proof.
  refine (proj1 (proj2 (hosts_mode_inverts (L:=world) canonical_order two_hosts false
                          "" None [] _)) "host1.example.com" {[ "1.2.3.4" ]} "1.2.3.4" _ _).
  - reflexivity.
  - vm_compute. reflexivity.
  - by apply elem_of_singleton.
Defined.

(** C5, counterexample: the names of the index are written as they are.
    Each of these four runs looks up one CIDR and prints the one entry of
    its index; the lines of the text written do not read back as that
    index: a hostname that holds [": "] is cut short, an IP that holds a
    space reads as two, and a line feed in a hostname or in an IP makes
    two lines of one, the first or the second of which has no [": "]. *)
Lemma unescaped_names_break_round_trip :
  (Unescaped.index_of "10.0.0.0/24" = {[ "a: b" := {[ "c" ]} ]} ∧
   main (L:=Unescaped.service) canonical_order (Unescaped.lookup "10.0.0.0/24") [] =
     (Done tt, [EvGet "https://www.robtex.com/cidr/10.0.0.0-24"; EvPrint "a: b: c"]) ∧
   text_lines (stdout_text [EvPrint "a: b: c"]) = ["a: b: c"] ∧
   reparse_default (text_lines (stdout_text [EvPrint "a: b: c"])) =
     Some {[ "a" := {[ "b:"; "c" ]} ]} ∧
   reparse_default (text_lines (stdout_text [EvPrint "a: b: c"])) ≠
     Some (Unescaped.index_of "10.0.0.0/24")) ∧
  (Unescaped.index_of "10.0.1.0/24" = {[ "host.example.com" := {[ "1.2.3.4 x" ]} ]} ∧
   main (L:=Unescaped.service) canonical_order (Unescaped.lookup "10.0.1.0/24") [] =
     (Done tt, [EvGet "https://www.robtex.com/cidr/10.0.1.0-24";
                EvPrint "host.example.com: 1.2.3.4 x"]) ∧
   reparse_default (text_lines (stdout_text [EvPrint "host.example.com: 1.2.3.4 x"])) =
     Some {[ "host.example.com" := {[ "1.2.3.4"; "x" ]} ]} ∧
   reparse_default (text_lines (stdout_text [EvPrint "host.example.com: 1.2.3.4 x"])) ≠
     Some (Unescaped.index_of "10.0.1.0/24")) ∧
  (Unescaped.index_of "10.0.2.0/24" = {[ "a" +:+ line_feed +:+ "b" := {[ "c" ]} ]} ∧
   main (L:=Unescaped.service) canonical_order (Unescaped.lookup "10.0.2.0/24") [] =
     (Done tt, [EvGet "https://www.robtex.com/cidr/10.0.2.0-24";
                EvPrint ("a" +:+ line_feed +:+ "b: c")]) ∧
   text_lines (stdout_text [EvPrint ("a" +:+ line_feed +:+ "b: c")]) = ["a"; "b: c"] ∧
   reparse_default (text_lines (stdout_text [EvPrint ("a" +:+ line_feed +:+ "b: c")])) = None) ∧
  (Unescaped.index_of "10.0.3.0/24" =
     {[ "host.example.com" := {[ "c" +:+ line_feed +:+ "d" ]} ]} ∧
   main (L:=Unescaped.service) canonical_order (Unescaped.lookup "10.0.3.0/24") [] =
     (Done tt, [EvGet "https://www.robtex.com/cidr/10.0.3.0-24";
                EvPrint ("host.example.com: c" +:+ line_feed +:+ "d")]) ∧
   text_lines (stdout_text [EvPrint ("host.example.com: c" +:+ line_feed +:+ "d")]) =
     ["host.example.com: c"; "d"] ∧
   reparse_default
     (text_lines (stdout_text [EvPrint ("host.example.com: c" +:+ line_feed +:+ "d")])) = None).
Proof.
  repeat split; try (vm_compute; reflexivity).
  - intros Heq. apply (f_equal (λ o, o ≫= (.!! "a"))) in Heq.
    vm_compute in Heq. discriminate Heq.
  - intros Heq.
    apply (f_equal (λ o : option HostnameIndex,
                      s ← o ≫= (.!! "host.example.com"); Some (bool_decide ("x" ∈ s)))) in Heq.
    vm_compute in Heq. discriminate Heq.
Qed.

(** C5 on the index that the run of [-c 1.2.3.0/24] builds, without
    filter: one hostname has the IP ["1.2.3.4"], the other the empty IP
    of an anchor without IP link. *)
Lemma default_mode_round_trip_witness :
  ∃ rws, rws.*1 ≡ₚ (map_to_list (filtered (L:=world) "" None
                       {[ "host1.example.com" := {[ "1.2.3.4" ]};
                          "mail.example.com" := {[ "" ]} ]})).*1 ∧
    let lines := map (λ row, fst row +:+ ": " +:+ strings.Join (snd row) " ") rws in
    printResults (L:=world) canonical_order
      {[ "host1.example.com" := {[ "1.2.3.4" ]}; "mail.example.com" := {[ "" ]} ]}
      false false "" [] = (Done tt, [] ++ map EvPrint lines) ∧
    text_lines (stdout_text (map EvPrint lines)) = lines ∧
    reparse_default (text_lines (stdout_text (map EvPrint lines))) =
      Some (filtered (L:=world) "" None
              {[ "host1.example.com" := {[ "1.2.3.4" ]}; "mail.example.com" := {[ "" ]} ]}).
Proof.
  apply (default_mode_round_trip (L:=world) canonical_order
           {[ "host1.example.com" := {[ "1.2.3.4" ]}; "mail.example.com" := {[ "" ]} ]}
           "" None []).
  - exists ["1.2.3.0/24"], [], [EvGet "https://www.robtex.com/cidr/1.2.3.0-24"].
    left. vm_compute. reflexivity.
  - reflexivity.
  - intros h ips [Hl _]%filtered_lookup.
    apply lookup_insert_Some in Hl as [[<- <-]|[_ [<- <-]%lookup_singleton_Some]].
    + split; [reflexivity|]. split; [reflexivity|].
      intros ip ->%elem_of_singleton. split; reflexivity.
    + split; [reflexivity|]. split; [reflexivity|].
      intros ip ->%elem_of_singleton. split; reflexivity.
Defined.

(** C6 on the pattern ["("], which does not compile. *)
Lemma printResults_invalid_filter_witness :
  printResults (L:=world) canonical_order two_hosts true false "(" [] =
    (Fatal ("Invalid regex pattern: " +:+ "error parsing regexp: missing closing ): `(`"), []) ∧
  stdout (snd (printResults (L:=world) canonical_order two_hosts true false "(" [])) = stdout [] ∧
  exit_status (fst (printResults (L:=world) canonical_order two_hosts true false "(" [])) = 1.
Proof.
  apply (printResults_invalid_filter (L:=world) canonical_order two_hosts true false "(").
  - discriminate.
  - reflexivity.
Defined.

(** C7, counterexample: a CIDR that holds a control byte (here a tab)
    makes [http.NewRequest] fail: [searchCIDR] sends no GET and the
    process stops. *)
Lemma searchCIDR_refused_request :
  searchCIDR (L:=world) ("1.2.3.0/24" +:+ tab) [] =
    (Fatal "Failed to create HTTP request: net/url: invalid control character in URL", []) ∧
  requests (snd (searchCIDR (L:=world) ("1.2.3.0/24" +:+ tab) [])) = [].
Proof. split; vm_compute; reflexivity. Qed.

(** C7 on a CIDR whose lookup answers 404, and on one that holds a tab. *)
Lemma searchCIDR_one_fetch_witness :
  (∃ res, searchCIDR (L:=world) "5.6.7.0/24" [] =
            (Done res, [] ++ [EvGet (robtexURL +:+ strings.map_bytes strings.slash_to_dash "5.6.7.0/24")]) ∧
          (lookup_failed (L:=world) [] (robtexURL +:+ strings.map_bytes strings.slash_to_dash "5.6.7.0/24") →
           res = ∅ ∧ ∀ results, merge_into canonical_order results res = results)) ∧
  searchCIDR (L:=world) ("1.2.3.0/24" +:+ tab) [] =
    (Fatal ("Failed to create HTTP request: " +:+ "net/url: invalid control character in URL"), []) ∧
  requests (snd (searchCIDR (L:=world) ("1.2.3.0/24" +:+ tab) [])) = requests [] ∧
  exit_status (fst (searchCIDR (L:=world) ("1.2.3.0/24" +:+ tab) [])) = 1.
Proof.
  split.
  - apply (proj1 (searchCIDR_one_fetch (L:=world) canonical_order "5.6.7.0/24" [])).
    vm_compute. reflexivity.
  - apply (proj2 (searchCIDR_one_fetch (L:=world) canonical_order ("1.2.3.0/24" +:+ tab) [])).
    vm_compute. reflexivity.
Defined.

(** C8 on an ASN whose lookup answers 500, with one more ASN after it. *)
Lemma searchASN_skips_failed_witness :
  searchASN_loop (L:=world) ["AS64502"; "AS64501"] ["1.2.3.0/24"] [] =
  searchASN_loop (L:=world) ["AS64501"] ["1.2.3.0/24"] ([] ++ [EvGet (bgpURL +:+ "AS64502")]).
Proof.
  apply (searchASN_skips_failed (L:=world) "AS64502" ["AS64501"] ["1.2.3.0/24"] []).
  - vm_compute. reflexivity.
  - right. exists 500, "". split; [vm_compute; reflexivity|]. left. discriminate.
Defined.

(** C9 on the second ASN of the list ["AS64502,AS64500"]. *)
Lemma searchASN_traces_each_prefix_witness :
  searchASN (L:=world) "AS64500" [] =
  (Done (asn_prefixes (L:=world) [] "AS64500"),
   [] ++ EvGet (bgpURL +:+ "AS64500") :: map EvPrint (asn_prefixes (L:=world) [] "AS64500")).
Proof.
  assert ("AS64500" ∈ strings.Split "AS64502,AS64500" ",") as Hin.
  { change (strings.Split "AS64502,AS64500" ",") with ["AS64502"; "AS64500"].
    apply elem_of_cons. right. apply elem_of_cons. by left. }
  refine (proj1 (proj2 (proj1 (Forall_forall _ _)
            (proj1 (searchASN_traces_each_prefix (L:=world) canonical_order "AS64502,AS64500"))
            "AS64500" Hin) []) _).
  vm_compute. reflexivity.
Defined.

(** The same call, evaluated: the two prefixes of the page, trimmed, on two
    lines after the GET. *)
Lemma searchASN_AS64500 :
  searchASN (L:=world) "AS64500" [] =
  (Done ["1.2.3.0/24"; "1.2.4.0/24"],
   [EvGet "https://bgp.he.net/AS64500"; EvPrint "1.2.3.0/24"; EvPrint "1.2.4.0/24"]).
Proof. vm_compute. reflexivity. Qed.

(** [Action] never hands [searchASN] two ASNs at once. If it did, the
    second ASN would print the prefixes of the first again: the print loop
    walks the whole slice built so far. *)
Lemma searchASN_two_at_once :
  searchASN (L:=world) "AS64500,AS64501" [] =
  (Done ["1.2.3.0/24"; "1.2.4.0/24"; "5.6.7.0/24"],
   [EvGet "https://bgp.he.net/AS64500"; EvPrint "1.2.3.0/24"; EvPrint "1.2.4.0/24";
    EvGet "https://bgp.he.net/AS64501";
    EvPrint "1.2.3.0/24"; EvPrint "1.2.4.0/24"; EvPrint "5.6.7.0/24"]).
Proof. vm_compute. reflexivity. Qed.

(** A whole run on two ASNs, the second of which answers 500. *)
Lemma run_two_asns :
  run {| flag_cidr := ""; flag_asn := "AS64500,AS64502";
         flag_hosts := false; flag_fqdn := true; flag_filter := "" |} =
  (Done tt,
   [EvGet "https://bgp.he.net/AS64500"; EvPrint "1.2.3.0/24"; EvPrint "1.2.4.0/24";
    EvGet "https://www.robtex.com/cidr/1.2.3.0-24";
    EvGet "https://www.robtex.com/cidr/1.2.4.0-24";
    EvGet "https://bgp.he.net/AS64502";
    EvPrint "mail.example.com"; EvPrint "host1.example.com"; EvPrint "host2.example.com"]).
Proof. vm_compute. reflexivity. Qed.

(** C10 on an invocation with both flags, in hosts mode, with a filter. *)
Lemma cidr_takes_priority_witness :
  main (L:=world) canonical_order both_flags_hosts [] =
    main (L:=world) canonical_order (without_asn both_flags_hosts) [] ∧
  fst (main (L:=world) canonical_order both_flags_hosts []) ≠ Fatal invalid_parameters ∧
  ∃ new, snd (main (L:=world) canonical_order both_flags_hosts []) = [] ++ new ∧
         Forall (λ e, ¬ bgp_get e ∧ (robtex_get e ∨ ∃ line, e = EvPrint line)) new.
Proof.
  apply (cidr_takes_priority (L:=world) canonical_order both_flags_hosts []); discriminate.
Defined.

End Runs.

(** * More of the program

    Properties of [searchCIDR], [searchASN], the loops of [Action] and
    [printResults] beyond the statements above. *)

(** ** Strings *)

Module more_strings.
Import strings strings_facts reparse_facts.

Lemma prefix_app (p s : string) : String.prefix p (p +:+ s) = true.
Proof.
  induction p as [|c p IH]; [apply prefix_nil|].
  change (String c p +:+ s) with (String c (p +:+ s)).
  by rewrite prefix_cons, bool_decide_eq_true_2, IH.
Qed.

Lemma Replace_from_none (old new s : string) : Replace_from old new s 0 0 = s.
Proof. induction s as [|c s IH]; [done|]. cbn [Replace_from]. cbn. by rewrite IH. Qed.

Lemma Replace_from_skip (old new x s : string) (n : Z) :
  Replace_from old new (x +:+ s) (String.length x) n = Replace_from old new s 0 n.
Proof. induction x as [|c x IH]; [done|]. apply IH. Qed.

(** Replacing the first occurrence of a prefix by nothing leaves the rest. *)
Lemma Replace_strip (c : ascii) (p s : string) :
  Replace (String c p +:+ s) (String c p) "" 1 = s.
Proof.
  unfold Replace. change (String c p +:+ s) with (String c (p +:+ s)).
  cbn [Replace_from]. change (String c (p +:+ s)) with (String c p +:+ s).
  rewrite prefix_app. cbn [Z.eqb negb andb String.length].
  replace (S (String.length p) - 1)%nat with (String.length p) by lia.
  rewrite Replace_from_skip. apply Replace_from_none.
Qed.

Lemma Join_cons (a : string) (c : ascii) (l : list string) :
  l ≠ [] → Join (a :: l) (String c "") = a +:+ String c (Join l (String c "")).
Proof. by destruct l. Qed.

Lemma map_bytes_length (f : ascii → ascii) (s : string) :
  String.length (map_bytes f s) = String.length s.
Proof. induction s as [|c s IH]; [done|]. cbn. by rewrite IH. Qed.

Lemma map_bytes_no_slash (s : string) : Contains (map_bytes slash_to_dash s) "/" = false.
Proof.
  induction s as [|c s IH]; [done|].
  change (String.prefix "/" (String (slash_to_dash c) (map_bytes slash_to_dash s))
          || Contains (map_bytes slash_to_dash s) "/" = false).
  rewrite prefix_byte, IH, orb_false_r. apply bool_decide_eq_false_2.
  unfold slash_to_dash. case_bool_decide; [done|congruence].
Qed.

Lemma map_bytes_get (f : ascii → ascii) (s : string) (n : nat) :
  String.get n (map_bytes f s) = f <$> String.get n s.
Proof.
  revert n. induction s as [|c s IH]; intros n; [done|].
  destruct n as [|n]; [done|]. cbn [map_bytes String.get]. apply IH.
Qed.

End more_strings.

(** ** More of the resolvers *)

Section MoreResolvers.
Context `{L : Libraries} (ord : MapOrder).
Import strings strings_facts more_strings.

Lemma member_add_anchor (m : HostnameIndex) (a : string * string) (h ip : string) :
  member (add_anchor m a) h ip ↔
  member m h ip ∨ (h = Replace a.1 dns_lookup "" 1 ∧ ip = Replace a.2 ip_lookup "" 1).
Proof. unfold add_anchor. cbv zeta. apply member_put_ensure. Qed.

Lemma member_foldl_anchor (m : HostnameIndex) (anchors : list (string * string))
    (h ip : string) :
  member (foldl add_anchor m anchors) h ip ↔
  member m h ip ∨
  ∃ a, a ∈ anchors ∧ h = Replace a.1 dns_lookup "" 1 ∧ ip = Replace a.2 ip_lookup "" 1.
Proof.
  revert m. induction anchors as [|a anchors IH]; intros m; cbn [foldl].
  - split; [by left|]. intros [?|(a & ?%elem_of_nil & _)]; done.
  - rewrite IH, member_add_anchor. split.
    + intros [[?|?]|(b & ? & ?)]; [by left| |].
      * right. exists a. split; [left|done].
      * right. exists b. split; [by right|done].
    + intros [?|(b & [->|?]%elem_of_cons & ?)]; [by left; left|by left; right|].
      right. by exists b.
Qed.

(** X1: when the lookup of a CIDR succeeds (request built, status 200, page
    parsed), [searchCIDR] sends its one GET and returns the index that
    holds an IP under a hostname exactly when some anchor of the page
    gives that hostname and that IP, each with its URL prefix stripped;
    rows with the same hostname add up, and every hostname of the result
    has at least one IP (the empty string when a row has no IP link). *)
Theorem searchCIDR_collects_anchors (cidr body : string) (doc : Doc) (tr : list event) :
  NewRequest_err (cidr_url cidr) = None →
  client_Do tr (cidr_url cidr) = Some (StatusOK, body) →
  NewDocumentFromReader body = Some doc →
  ∃ res, searchCIDR cidr tr = (Done res, tr ++ [EvGet (cidr_url cidr)]) ∧
    (∀ h ip, member res h ip ↔
       ∃ a, a ∈ dns_anchors doc ∧
            h = Replace a.1 dns_lookup "" 1 ∧ ip = Replace a.2 ip_lookup "" 1) ∧
    (∀ h, is_Some (res !! h) ↔ ∃ ip, member res h ip).
Proof.
  intros Hreq Hdo Hdoc. unfold cidr_url in *.
  exists (foldl add_anchor ∅ (dns_anchors doc)). split.
  { rewrite (searchCIDR_built cidr tr Hreq), Hdo. cbv beta iota.
    rewrite Z.eqb_refl. cbn [negb]. by rewrite Hdoc. }
  split.
  - intros h ip. rewrite member_foldl_anchor. unfold member at 1.
    setoid_rewrite lookup_empty. naive_solver.
  - intros h. split.
    + intros [ips Hips].
      assert (no_empty_set (foldl add_anchor ∅ (dns_anchors doc))) as Hne.
      { generalize (dns_anchors doc). intros anchors.
        assert (∀ m, no_empty_set m → no_empty_set (foldl add_anchor m anchors)) as Hfold.
        { induction anchors as [|a anchors IH]; intros m Hm; [done|].
          cbn [foldl]. by apply IH, add_anchor_no_empty_set. }
        apply Hfold, no_empty_set_empty. }
      destruct (set_choose_L ips) as [ip Hip]; [by eapply Hne|].
      exists ip, ips. done.
    + intros (ip & ips & Hips & _). by exists ips.
Qed.

(** X2: an anchor whose [href] is the DNS-lookup prefix followed by [h]
    records the hostname [h]; its IP is what follows the IP-lookup prefix
    in the IP link, and the empty string when there is no IP link; what the
    index held before stays. *)
Theorem add_anchor_strips_prefixes (m : HostnameIndex) (h ip : string) :
  member (add_anchor m (dns_lookup +:+ h, ip_lookup +:+ ip)) h ip ∧
  member (add_anchor m (dns_lookup +:+ h, "")) h "" ∧
  ∀ a h' ip', member m h' ip' → member (add_anchor m a) h' ip'.
Proof.
  split; [|split].
  - apply member_add_anchor. right. cbn [fst snd]. unfold dns_lookup, ip_lookup.
    by rewrite !Replace_strip.
  - apply member_add_anchor. right. cbn [fst snd]. unfold dns_lookup.
    by rewrite Replace_strip.
  - intros a h' ip' Hm. apply member_add_anchor. by left.
Qed.

(** X3: the URL that [searchCIDR] asks [http.NewRequest] for, and sends
    its GET to, is the CIDR lookup prefix followed by a path segment that
    has the length of the CIDR, holds no ["/"], and has at each position
    the byte of the CIDR, ["-"] where the CIDR has ["/"]: when the request
    is built the call adds this one GET to the trace, and when it is not
    the process stops with nothing sent. *)
Theorem searchCIDR_url_no_slash (cidr : string) (tr : list event) :
  ∃ uri,
    String.length uri = String.length cidr ∧
    Contains uri "/" = false ∧
    (∀ n, String.get n uri =
          (λ c : ascii, if bool_decide (c = "/"%char) then "-"%char else c) <$> String.get n cidr) ∧
    (NewRequest_err (robtexURL +:+ uri) = None →
     snd (searchCIDR cidr tr) = tr ++ [EvGet (robtexURL +:+ uri)]) ∧
    (∀ err, NewRequest_err (robtexURL +:+ uri) = Some err →
     searchCIDR cidr tr = (Fatal ("Failed to create HTTP request: " +:+ err), tr)).
Proof.
  exists (map_bytes slash_to_dash cidr). rewrite <- Replace_slash.
  split; [rewrite Replace_slash; apply map_bytes_length|].
  split; [rewrite Replace_slash; apply map_bytes_no_slash|].
  split; [intros n; rewrite Replace_slash; apply map_bytes_get|]. split.
  - intros Hreq. by rewrite searchCIDR_built.
  - intros err Hreq. by apply searchCIDR_refused.
Qed.

Lemma table_prefixes_nonempty (doc : Doc) : Forall (λ p, p ≠ "") (table_prefixes doc).
Proof. apply Forall_forall. by intros p [? _]%list_elem_of_filter. Qed.

(** On a network whose answer to the lookup of an ASN does not change
    during the run, the prefixes discovered do not depend on the moment. *)
Lemma asn_prefixes_stable (asn : string) (tr1 tr2 : list event) :
  (∀ tr1 tr2, client_Do tr1 (bgpURL +:+ asn) = client_Do tr2 (bgpURL +:+ asn)) →
  asn_prefixes tr1 asn = asn_prefixes tr2 asn.
Proof. intros Hstable. unfold asn_prefixes. by rewrite (Hstable tr1 tr2). Qed.

(** One turn of the loop of [searchASN]: the GET, then either nothing more
    (no prefix discovered) or the whole slice printed, the prefixes
    discovered at its end. *)
Lemma searchASN_loop_turn (asn : string) (rest ranges : list string) (tr : list event) :
  NewRequest_err (bgpURL +:+ asn) = None →
  ∃ new,
    searchASN_loop (asn :: rest) ranges tr =
    searchASN_loop rest (ranges ++ asn_prefixes tr asn) (tr ++ EvGet (bgpURL +:+ asn) :: new) ∧
    ((new = [] ∧ asn_prefixes tr asn = []) ∨
     new = map EvPrint (ranges ++ asn_prefixes tr asn)).
Proof.
  intros Hreq. rewrite searchASN_loop_built by done. unfold asn_prefixes.
  assert (searchASN_loop rest ranges (tr ++ [EvGet (bgpURL +:+ asn)]) =
          searchASN_loop rest (ranges ++ []) (tr ++ EvGet (bgpURL +:+ asn) :: []))
    as Hskip by (by rewrite app_nil_r).
  destruct (client_Do tr (bgpURL +:+ asn)) as [[status body]|];
    [|exists []; split; [exact Hskip | by left]].
  destruct (status =? StatusOK); cbn [negb];
    [|exists []; split; [exact Hskip | by left]].
  destruct (NewDocumentFromReader body) as [doc|];
    [|exists []; split; [exact Hskip | by left]].
  exists (map EvPrint (ranges ++ table_prefixes doc)). split; [|by right].
  by rewrite <- app_assoc.
Qed.

(** X4: when every request is built, on a network whose answer to the
    lookup of an ASN does not change during the call, the slice that the
    loop of [searchASN] returns is the slice it started from followed by
    the prefixes on the page of each ASN of the list, in the order of the
    list and of the pages: nothing is dropped or reordered and a prefix
    found twice is there twice; none of the prefixes added is empty. *)
Theorem searchASN_loop_extends (asnList ranges : list string) (tr : list event) :
  Forall (λ asn, NewRequest_err (bgpURL +:+ asn) = None) asnList →
  Forall (λ asn, ∀ tr1 tr2,
            client_Do tr1 (bgpURL +:+ asn) = client_Do tr2 (bgpURL +:+ asn)) asnList →
  fst (searchASN_loop asnList ranges tr) =
    Done (ranges ++ List.concat (map (asn_prefixes tr) asnList)) ∧
  Forall (λ p, p ≠ "") (List.concat (map (asn_prefixes tr) asnList)).
Proof.
  intros Hbuilt Hstable. split.
  - revert ranges tr Hstable.
    induction Hbuilt as [|asn rest Hreq _ IH]; intros ranges tr Hstable.
    + cbn. by rewrite app_nil_r.
    + apply Forall_cons in Hstable as [Hasn Hrest].
      destruct (searchASN_loop_turn asn rest ranges tr Hreq) as (new & -> & _).
      rewrite IH by done. cbn [map List.concat]. rewrite <- app_assoc.
      assert (map (asn_prefixes (tr ++ EvGet (bgpURL +:+ asn) :: new)) rest =
              map (asn_prefixes tr) rest) as ->; [|done].
      apply map_ext_in. intros asn' Hin%list_elem_of_In.
      apply asn_prefixes_stable. by eapply Forall_forall in Hrest.
  - apply Forall_forall. intros p Hp%list_elem_of_In.
    apply in_concat in Hp as (l & Hl%list_elem_of_In & Hp%list_elem_of_In).
    apply list_elem_of_fmap in Hl as (asn & -> & _). unfold asn_prefixes in Hp.
    destruct (client_Do tr (bgpURL +:+ asn)) as [[status body]|]; [|by apply elem_of_nil in Hp].
    destruct (status =? StatusOK); [|by apply elem_of_nil in Hp].
    destruct (NewDocumentFromReader body) as [doc|]; [|by apply elem_of_nil in Hp].
    by eapply Forall_forall in Hp; [|apply table_prefixes_nonempty].
Qed.

(** X5: the loop of [searchASN] sends one GET per ASN, in the order of the
    list, to the ASN lookup URL followed by the identifier, also after a
    lookup that failed; it stops early only when a request cannot be
    built, and then the ASNs after that one get no GET. *)
Theorem searchASN_loop_requests (asnList ranges : list string) (tr : list event) :
  ∃ k, (k ≤ length asnList)%nat ∧
    requests (snd (searchASN_loop asnList ranges tr)) =
      requests tr ++ map (λ asn, bgpURL +:+ asn) (take k asnList) ∧
    (∀ r, fst (searchASN_loop asnList ranges tr) = Done r → k = length asnList) ∧
    (∀ msg, fst (searchASN_loop asnList ranges tr) = Fatal msg →
       ∃ asn, asnList !! k = Some asn ∧ is_Some (NewRequest_err (bgpURL +:+ asn))).
Proof.
  revert ranges tr. induction asnList as [|asn rest IH]; intros ranges tr.
  - exists 0%nat. cbn. rewrite app_nil_r. done.
  - destruct (NewRequest_err (bgpURL +:+ asn)) as [err|] eqn:Hreq.
    { exists 0%nat. cbn [searchASN_loop]. rewrite Hreq. cbn.
      rewrite app_nil_r. split; [lia|]. split; [done|]. split; [done|].
      intros msg _. exists asn. by rewrite Hreq. }
    rewrite searchASN_loop_built by done.
    assert (∀ ranges1 tr1, requests tr1 = requests tr ++ [bgpURL +:+ asn] →
      ∃ k, (k ≤ length (asn :: rest))%nat ∧
        requests (snd (searchASN_loop rest ranges1 tr1)) =
          requests tr ++ map (λ asn, bgpURL +:+ asn) (take k (asn :: rest)) ∧
        (∀ r, fst (searchASN_loop rest ranges1 tr1) = Done r → k = length (asn :: rest)) ∧
        (∀ msg, fst (searchASN_loop rest ranges1 tr1) = Fatal msg →
           ∃ asn', (asn :: rest) !! k = Some asn' ∧
                   is_Some (NewRequest_err (bgpURL +:+ asn')))) as Hstep.
    { intros ranges1 tr1 Htr1. destruct (IH ranges1 tr1) as (k & Hk & Hreqs & Hdone & Hfatal).
      exists (S k). split; [cbn; lia|]. split; [|split].
      - rewrite Hreqs, Htr1. cbn [take map]. by rewrite <- app_assoc.
      - intros r Hr. cbn. f_equal. by eapply Hdone.
      - intros msg Hmsg. by eapply Hfatal. }
    assert (requests (tr ++ [EvGet (bgpURL +:+ asn)]) = requests tr ++ [bgpURL +:+ asn])
      as Hget by (unfold requests; by rewrite omap_app).
    destruct (client_Do tr (bgpURL +:+ asn)) as [[status body]|]; [|by apply Hstep].
    destruct (negb (status =? StatusOK)); [by apply Hstep|].
    destruct (NewDocumentFromReader body) as [doc|]; [|by apply Hstep].
    apply Hstep. unfold requests in *. rewrite omap_app, Hget.
    assert (omap (λ e, match e with EvGet u => Some u | EvPrint _ => None end)
              (map EvPrint (ranges ++ table_prefixes doc)) = []) as ->.
    { induction (ranges ++ table_prefixes doc) as [|x l IHl]; [done|]. by cbn. }
    by rewrite app_nil_r.
Qed.

(** X6: when every request is built, on a network whose answer to the
    lookup of an ASN does not change during the call, every prefix on the
    page of an ASN of the list is written by the loop of [searchASN] on a
    line of standard output, and every line written is such a prefix or an
    element of the slice the loop started from: no prefix found is passed
    over in silence and nothing else is printed. *)
Theorem searchASN_loop_prints_found (asnList ranges : list string) (tr : list event) :
  Forall (λ asn, NewRequest_err (bgpURL +:+ asn) = None) asnList →
  Forall (λ asn, ∀ tr1 tr2,
            client_Do tr1 (bgpURL +:+ asn) = client_Do tr2 (bgpURL +:+ asn)) asnList →
  ∃ new, snd (searchASN_loop asnList ranges tr) = tr ++ new ∧
    (∀ line, line ∈ stdout new →
       line ∈ ranges ∨ ∃ asn, asn ∈ asnList ∧ line ∈ asn_prefixes tr asn) ∧
    (∀ asn p, asn ∈ asnList → p ∈ asn_prefixes tr asn → p ∈ stdout new).
Proof.
  intros Hbuilt. revert ranges tr.
  induction Hbuilt as [|asn rest Hreq _ IH]; intros ranges tr Hstable.
  - exists []. cbn. rewrite app_nil_r. split; [done|]. split.
    + by intros line ?%elem_of_nil.
    + by intros asn p ?%elem_of_nil.
  - apply Forall_cons in Hstable as [Hasn Hrest].
    destruct (searchASN_loop_turn asn rest ranges tr Hreq) as (turn & -> & Hturn).
    destruct (IH (ranges ++ asn_prefixes tr asn) (tr ++ EvGet (bgpURL +:+ asn) :: turn) Hrest)
      as (new & -> & Hin & Hout).
    assert (∀ asn' p, asn' ∈ rest →
              p ∈ asn_prefixes (tr ++ EvGet (bgpURL +:+ asn) :: turn) asn' ↔
              p ∈ asn_prefixes tr asn') as Hsame.
    { intros asn' p Hasn'. rewrite (asn_prefixes_stable asn' _ tr); [done|].
      by eapply Forall_forall in Hrest. }
    exists (EvGet (bgpURL +:+ asn) :: turn ++ new). split; [|split].
    + rewrite <- app_assoc. done.
    + intros line. rewrite stdout_get, stdout_app. intros [Hline|Hline]%elem_of_app.
      * destruct Hturn as [[-> _]| ->]; [by apply elem_of_nil in Hline|].
        rewrite stdout_prints in Hline. apply elem_of_app in Hline as [?|?]; [by left|].
        right. exists asn. split; [by left | done].
      * apply Hin in Hline as [[?|?]%elem_of_app|(asn' & Hasn' & Hp)]; [by left| |].
        -- right. exists asn. split; [by left | done].
        -- right. exists asn'. split; [by right|]. by apply Hsame.
    + intros asn' p [->|Hasn']%elem_of_cons Hp; rewrite stdout_get, stdout_app; apply elem_of_app.
      * left. destruct Hturn as [[_ Hnone]| ->]; [rewrite Hnone in Hp; by apply elem_of_nil in Hp|].
        rewrite stdout_prints. apply elem_of_app. by right.
      * right. apply (Hout asn' p Hasn'). by apply Hsame.
Qed.

End MoreResolvers.

(** ** More of the cli action *)

Section MoreAction.
Context `{L : Libraries} (ord : MapOrder).
Import strings strings_facts more_strings.

Lemma requests_app (tr1 tr2 : list event) :
  requests (tr1 ++ tr2) = requests tr1 ++ requests tr2.
Proof. apply omap_app. Qed.

Lemma requests_prints (lines : list string) : requests (map EvPrint lines) = [].
Proof. induction lines as [|l lines IH]; [done|]. exact IH. Qed.

(** What the loop over the CIDRs sends and writes when every request is
    built. *)
Lemma cidr_loop_requests (cidrs : list string) (results : HostnameIndex) (tr : list event) :
  Forall (λ cidr, NewRequest_err (cidr_url cidr) = None) cidrs →
  ∃ r tr', cidr_loop ord cidrs results tr = (Done r, tr') ∧
    requests tr' = requests tr ++ map cidr_url cidrs ∧
    stdout tr' = stdout tr.
Proof.
  intros Hbuilt. revert results tr.
  induction Hbuilt as [|cidr rest Hreq _ IH]; intros results tr.
  - exists results, tr. by rewrite app_nil_r.
  - cbn [cidr_loop]. unfold bind. unfold cidr_url in Hreq.
    rewrite (searchCIDR_built cidr tr Hreq).
    destruct (IH (merge_into ord results
                    match client_Do tr (robtexURL +:+ Replace cidr "/" "-" (-1)) with
                    | Some (status, body) =>
                        if negb (status =? StatusOK) then ∅
                        else match NewDocumentFromReader body with
                             | Some doc => foldl add_anchor ∅ (dns_anchors doc)
                             | None => ∅
                             end
                    | None => ∅
                    end)
                 (tr ++ [EvGet (robtexURL +:+ Replace cidr "/" "-" (-1))]))
      as (r & tr' & Hloop & Hreqs & Hout).
    exists r, tr'. split; [exact Hloop|]. split.
    + rewrite Hreqs, requests_app. cbn [map]. by rewrite <- app_assoc.
    + by rewrite Hout, stdout_app, app_nil_r.
Qed.

(** The GETs of a run are those of its lookups: [printResults] adds none. *)
Lemma main_requests_cidr (c : Flags) (tr : list event) :
  flag_cidr c ≠ "" →
  requests (snd (main ord c tr)) =
  requests (snd (cidr_loop ord (Split (flag_cidr c) ",") ∅ tr)).
Proof.
  intros Hc. unfold main, Action. rewrite bool_decide_eq_false_2 by done.
  cbn [negb]. unfold bind.
  destruct (cidr_loop ord (Split (flag_cidr c) ",") ∅ tr) as [[results|msg] tr1]; [|done].
  destruct (printResults_events ord results (flag_hosts c) (flag_fqdn c)
              (flag_filter c) tr1) as (lines & Hlines).
  destruct (printResults ord results (flag_hosts c) (flag_fqdn c) (flag_filter c) tr1)
    as [[[]|msg] tr2]; cbn [snd] in *; subst tr2; unfold ret; cbn [snd];
    by rewrite requests_app, requests_prints, app_nil_r.
Qed.

Lemma main_requests_asn (c : Flags) (tr : list event) :
  flag_cidr c = "" → flag_asn c ≠ "" →
  requests (snd (main ord c tr)) =
  requests (snd (asn_loop ord (Split (flag_asn c) ",") ∅ tr)).
Proof.
  intros Hc Ha. unfold main, Action. rewrite bool_decide_eq_true_2 by done.
  rewrite bool_decide_eq_false_2 by done. cbn [negb]. unfold bind.
  destruct (asn_loop ord (Split (flag_asn c) ",") ∅ tr) as [[results|msg] tr1]; [|done].
  destruct (printResults_events ord results (flag_hosts c) (flag_fqdn c)
              (flag_filter c) tr1) as (lines & Hlines).
  destruct (printResults ord results (flag_hosts c) (flag_fqdn c) (flag_filter c) tr1)
    as [[[]|msg] tr2]; cbn [snd] in *; subst tr2; unfold ret; cbn [snd];
    by rewrite requests_app, requests_prints, app_nil_r.
Qed.

(** X7: with a non-empty [--cidr] whose pieces all give a request that can
    be built, a run sends exactly one GET per piece of the value between
    commas, in order, to the lookup URL of that piece: an empty piece and a
    repeated piece are looked up like any other, and neither the mode
    flags nor the filter (valid or not) change that. *)
Theorem cidr_mode_lookups (c : Flags) (tr : list event) :
  flag_cidr c ≠ "" →
  Forall (λ cidr, NewRequest_err (cidr_url cidr) = None) (Split (flag_cidr c) ",") →
  requests (snd (main ord c tr)) =
  requests tr ++ map cidr_url (Split (flag_cidr c) ",").
Proof.
  intros Hc Hbuilt. rewrite main_requests_cidr by done.
  destruct (cidr_loop_requests (Split (flag_cidr c) ",") ∅ tr Hbuilt)
    as (r & tr' & -> & Hreqs & _).
  exact Hreqs.
Qed.

(** X8: the GETs of a run depend on [--cidr] and [--asn] only: two
    invocations that differ in [--hosts], [--fqdn] or [--filter] send the
    same requests in the same order. *)
Theorem presentation_flags_do_not_change_lookups (c c' : Flags) (tr : list event) :
  flag_cidr c = flag_cidr c' → flag_asn c = flag_asn c' →
  requests (snd (main ord c tr)) = requests (snd (main ord c' tr)).
Proof.
  intros Hc Ha. destruct (decide (flag_cidr c = "")) as [Hce|Hce].
  - destruct (decide (flag_asn c = "")) as [Hae|Hae].
    + rewrite !main_no_flags by congruence. done.
    + rewrite !main_requests_asn by congruence. by rewrite Ha.
  - rewrite !main_requests_cidr by congruence. by rewrite Hc.
Qed.

(** X9: the filter is compiled only after the lookups. With a filter that
    does not compile, a run in ASN mode whose lookups go through still
    performs them all and writes the progress line of every prefix
    discovered, and only then stops with ["Invalid regex pattern: ..."];
    in CIDR mode it performs the lookups and stops having written nothing. *)
Theorem invalid_filter_after_lookups (c : Flags) (err : string)
    (results : HostnameIndex) (tr tr1 : list event) :
  flag_filter c ≠ "" →
  regexp_Compile (flag_filter c) = inr err →
  (flag_cidr c ≠ "" →
   cidr_loop ord (Split (flag_cidr c) ",") ∅ tr = (Done results, tr1) →
   main ord c tr = (Fatal ("Invalid regex pattern: " +:+ err), tr1) ∧
   stdout tr1 = stdout tr) ∧
  (flag_cidr c = "" → flag_asn c ≠ "" →
   asn_loop ord (Split (flag_asn c) ",") ∅ tr = (Done results, tr1) →
   main ord c tr = (Fatal ("Invalid regex pattern: " +:+ err), tr1) ∧
   stdout tr1 = stdout tr ++ asn_loop_prefixes ord (Split (flag_asn c) ",") ∅ tr).
Proof.
  intros Hf Herr.
  assert (∀ tr0, printResults ord results (flag_hosts c) (flag_fqdn c) (flag_filter c) tr0 =
                 (Fatal ("Invalid regex pattern: " +:+ err), tr0)) as Hprint.
  { intros tr0. unfold printResults, bind, compile_filter.
    rewrite bool_decide_eq_false_2 by done. by rewrite Herr. }
  split.
  - intros Hc Hloop. split.
    + unfold main, Action. rewrite bool_decide_eq_false_2 by done. cbn [negb].
      unfold bind. by rewrite Hloop, Hprint.
    + destruct (cidr_loop_events ord (Split (flag_cidr c) ",") ∅ tr) as (new & Hnew & Hget).
      rewrite Hloop in Hnew. cbn [snd] in Hnew. subst tr1.
      by rewrite stdout_app, (stdout_robtex new Hget), app_nil_r.
  - intros Hc Ha Hloop. split.
    + unfold main, Action. rewrite bool_decide_eq_true_2 by done.
      rewrite bool_decide_eq_false_2 by done. cbn [negb].
      unfold bind. by rewrite Hloop, Hprint.
    + pose proof (asn_loop_stdout ord (Split (flag_asn c) ",") ∅ tr) as Hout.
      rewrite Hloop in Hout. apply Hout, Forall_forall.
      intros asn Hin. by eapply Split_byte_pieces.
Qed.

Lemma cidr_loop_app (pre post : list string) (results : HostnameIndex) (tr : list event) :
  cidr_loop ord (pre ++ post) results tr =
  match cidr_loop ord pre results tr with
  | (Done r, tr') => cidr_loop ord post r tr'
  | (Fatal msg, tr') => (Fatal msg, tr')
  end.
Proof.
  revert results tr. induction pre as [|cidr pre IH]; intros results tr; [done|].
  cbn [app cidr_loop]. unfold bind.
  destruct (searchCIDR cidr tr) as [[res|msg] tr1]; [apply IH | done].
Qed.

(** X10: a CIDR of the list whose request cannot be built ends the whole
    run: the pieces before it have been looked up, those after it are not,
    and no line of the report is written, whatever the earlier lookups
    found. *)
Theorem refused_cidr_ends_run (c : Flags) (pre post : list string)
    (bad err : string) (tr : list event) :
  flag_cidr c ≠ "" →
  Split (flag_cidr c) "," = pre ++ bad :: post →
  Forall (λ cidr, NewRequest_err (cidr_url cidr) = None) pre →
  NewRequest_err (cidr_url bad) = Some err →
  ∃ tr', main ord c tr = (Fatal ("Failed to create HTTP request: " +:+ err), tr') ∧
         requests tr' = requests tr ++ map cidr_url pre ∧
         stdout tr' = stdout tr.
Proof.
  intros Hc Hsplit Hpre Hbad.
  destruct (cidr_loop_requests pre ∅ tr Hpre) as (r & tr' & Hloop & Hreqs & Hout).
  exists tr'. split; [|done].
  unfold main, Action. rewrite bool_decide_eq_false_2 by done. cbn [negb].
  unfold bind at 1 2. rewrite Hsplit, cidr_loop_app, Hloop.
  cbn [cidr_loop]. unfold bind. unfold cidr_url in Hbad.
  by rewrite (searchCIDR_refused bad tr' err Hbad).
Qed.

Lemma cidr_loop_gets (cidrs : list string) (results : HostnameIndex) (tr : list event) :
  ∃ new, snd (cidr_loop ord cidrs results tr) = tr ++ new ∧
         Forall (λ e, ∃ cidr, cidr ∈ cidrs ∧ e = EvGet (cidr_url cidr)) new.
Proof.
  revert results tr. induction cidrs as [|cidr rest IH]; intros results tr.
  - exists []. by rewrite app_nil_r.
  - cbn [cidr_loop]. unfold bind.
    assert (∃ new1, snd (searchCIDR cidr tr) = tr ++ new1 ∧
              Forall (λ e, ∃ cidr', cidr' ∈ cidr :: rest ∧ e = EvGet (cidr_url cidr')) new1)
      as (new1 & Htr1 & Hnew1).
    { destruct (NewRequest_err (cidr_url cidr)) as [err|] eqn:Hreq; unfold cidr_url in Hreq.
      - rewrite (searchCIDR_refused _ _ _ Hreq). exists []. by rewrite app_nil_r.
      - rewrite (searchCIDR_built _ _ Hreq). eexists. split; [done|].
        apply Forall_singleton. exists cidr. split; [left|done]. }
    destruct (searchCIDR cidr tr) as [[res|msg] tr1]; cbn [snd] in Htr1; subst tr1.
    + destruct (IH (merge_into ord results res) (tr ++ new1)) as (new2 & -> & Hnew2).
      exists (new1 ++ new2). rewrite app_assoc. split; [done|].
      apply Forall_app. split; [done|].
      eapply Forall_impl; [exact Hnew2|]. intros e (cidr' & Hin & ->).
      exists cidr'. split; [by right|done].
    + by exists new1.
Qed.

(** X11: in ASN mode the resolution sends and writes nothing but: the GET
    of an ASN of the list, the progress line of a prefix discovered, and
    the GET of the lookup URL of a prefix discovered. *)
Theorem asn_loop_only_discovered (flag : string) (results : HostnameIndex)
    (tr : list event) :
  ∃ new, snd (asn_loop ord (Split flag ",") results tr) = tr ++ new ∧
    Forall (λ e,
      (∃ asn, asn ∈ Split flag "," ∧ e = EvGet (bgpURL +:+ asn)) ∨
      (∃ p, p ∈ asn_loop_prefixes ord (Split flag ",") results tr ∧
            (e = EvPrint p ∨ e = EvGet (cidr_url p)))) new.
Proof.
  assert (Forall (λ asn, Contains asn "," = false) (Split flag ",")) as Hasns.
  { apply Forall_forall. intros asn Hin. by eapply Split_byte_pieces. }
  revert Hasns results tr. generalize (Split flag ","). intros asns Hasns.
  induction Hasns as [|asn rest Hasn _ IH]; intros results tr.
  - exists []. by rewrite app_nil_r.
  - cbn [asn_loop asn_loop_prefixes]. unfold bind.
    destruct (NewRequest_err (bgpURL +:+ asn)) as [err|] eqn:Hreq.
    { rewrite !searchASN_single by done. cbn [searchASN_loop]. rewrite Hreq.
      exists []. by rewrite app_nil_r. }
    rewrite !searchASN_one by done.
    set (found := asn_prefixes tr asn).
    set (tr1 := tr ++ EvGet (bgpURL +:+ asn) :: map EvPrint found).
    destruct (cidr_loop_gets found results tr1) as (new2 & Htr2 & Hnew2).
    assert (Forall (λ e,
      (∃ asn', asn' ∈ asn :: rest ∧ e = EvGet (bgpURL +:+ asn')) ∨
      (∃ p, p ∈ found ∧ (e = EvPrint p ∨ e = EvGet (cidr_url p))))
      (EvGet (bgpURL +:+ asn) :: map EvPrint found ++ new2)) as Hhead.
    { apply Forall_cons. split; [left; exists asn; split; [left|done]|].
      apply Forall_app. split.
      - apply Forall_forall. intros e (p & -> & Hp)%list_elem_of_fmap. right. eauto.
      - eapply Forall_impl; [exact Hnew2|]. intros e (p & Hp & ->). right. eauto. }
    destruct (cidr_loop ord found results tr1) as [[results1|msg] tr2];
      cbn [snd] in Htr2; subst tr2.
    + destruct (IH results1 (tr1 ++ new2)) as (new3 & -> & Hnew3).
      exists ((EvGet (bgpURL +:+ asn) :: map EvPrint found ++ new2) ++ new3).
      split; [unfold tr1; rewrite <- !app_assoc; cbn [app]; by rewrite <- ?app_assoc|].
      apply Forall_app. split.
      * eapply Forall_impl; [exact Hhead|]. intros e [?|(p & Hp & He)]; [by left|].
        right. exists p. split; [apply elem_of_app; by left | done].
      * eapply Forall_impl; [exact Hnew3|].
        intros e [(asn' & Hin & ->)|(p & Hp & He)].
        -- left. exists asn'. split; [by right|done].
        -- right. exists p. split; [apply elem_of_app; by right | done].
    + exists (EvGet (bgpURL +:+ asn) :: map EvPrint found ++ new2).
      split; [unfold tr1; rewrite <- !app_assoc; cbn [app]; by rewrite <- ?app_assoc|].
      eapply Forall_impl; [exact Hhead|]. intros e [?|(p & Hp & He)]; [by left|].
      right. exists p. split; [by rewrite app_nil_r | done].
Qed.

End MoreAction.

(** ** More of the aggregation and of the presenter *)

Section MorePresenter.
Context `{L : Libraries} (ord : MapOrder).
Import strings strings_facts.

Lemma member_index_union (a b : HostnameIndex) (h ip : string) :
  member (index_union a b) h ip ↔ member a h ip ∨ member b h ip.
Proof.
  unfold member. rewrite index_union_lookup.
  destruct (a !! h) as [s|], (b !! h) as [t|]; cbn.
  - split.
    + intros (u & [= <-] & [?|?]%elem_of_union); eauto.
    + intros [(u & [= <-] & ?)|(u & [= <-] & ?)]; eexists; (split; [done|]); set_solver.
  - naive_solver.
  - naive_solver.
  - naive_solver.
Qed.

Lemma is_Some_index_union (a b : HostnameIndex) (h : string) :
  is_Some (index_union a b !! h) ↔ is_Some (a !! h) ∨ is_Some (b !! h).
Proof.
  rewrite index_union_lookup. unfold is_Some.
  destruct (a !! h) as [s|], (b !! h) as [t|]; cbn; naive_solver.
Qed.

(** X12: after the merge loop, the index holds an IP under a hostname
    exactly when it held it before or one of the merged results holds it,
    and it has a hostname exactly when it had it before or one of the
    merged results has it: merging loses nothing and adds nothing of its
    own, for any order of [range]. *)
Theorem merge_loop_holds_exactly_the_pairs
    (results : HostnameIndex) (partials : list HostnameIndex) (h ip : string) :
  (member (foldl (merge_into ord) results partials) h ip ↔
   member results h ip ∨ ∃ p, p ∈ partials ∧ member p h ip) ∧
  (is_Some (foldl (merge_into ord) results partials !! h) ↔
   is_Some (results !! h) ∨ ∃ p, p ∈ partials ∧ is_Some (p !! h)).
Proof.
  revert results. induction partials as [|p partials IH]; intros results; cbn [foldl].
  - split; (split; [by left|]); intros [?|(p & ?%elem_of_nil & _)]; done.
  - destruct (IH (merge_into ord results p)) as [IHm IHs].
    rewrite IHm, IHs, merge_into_union, member_index_union, is_Some_index_union.
    split; split.
    + intros [[?|?]|(q & ? & ?)]; [by left| |].
      * right. exists p. split; [left|done].
      * right. exists q. split; [by right|done].
    + intros [?|(q & [->|?]%elem_of_cons & ?)]; [by left; left|by left; right|].
      right. by exists q.
    + intros [[?|?]|(q & ? & ?)]; [by left| |].
      * right. exists p. split; [left|done].
      * right. exists q. split; [by right|done].
    + intros [?|(q & [->|?]%elem_of_cons & ?)]; [by left; left|by left; right|].
      right. by exists q.
Qed.

(** X13: in fqdn mode, with a usable filter, the lines written are the
    hostnames of the filtered index, each one exactly once: as many lines
    as hostnames that pass the filter, whatever their IPs. *)
Theorem fqdn_mode_lines (results : HostnameIndex) (filter : string)
    (re : option Regexp) (tr : list event) :
  compile_filter filter tr = (Done re, tr) →
  ∃ lines, printResults ord results false true filter tr =
             (Done tt, tr ++ map EvPrint lines) ∧
           lines ≡ₚ (map_to_list (filtered filter re results)).*1 ∧
           NoDup lines ∧
           length lines = size (filtered filter re results).
Proof.
  intros Hre.
  exists (List.filter (λ kv, selected filter re kv.1) (range_idx ord results)).*1.
  pose proof (kept_entries ord filter re results) as Hkept.
  split; [|split; [|split]].
  - rewrite (printResults_rows ord results false true filter re tr Hre).
    unfold rows, format_row. cbn [fst]. by rewrite !map_map.
  - by rewrite Hkept.
  - rewrite Hkept. apply NoDup_fst_map_to_list.
  - rewrite Hkept, length_fmap. apply length_map_to_list.
Qed.

Lemma invert_entry_no_empty_set (filter : string) (re : option Regexp)
    (acc : HostnameIndex) (kv : string * gset string) :
  no_empty_set acc → no_empty_set (invert_entry ord filter re acc kv).
Proof.
  intros Hacc. unfold invert_entry. destruct (selected filter re kv.1); [|done].
  generalize (range_set ord kv.2). intros ipl. revert acc Hacc.
  induction ipl as [|ip ipl IH]; intros acc Hacc; [done|].
  cbn [foldl]. apply IH. intros j s. rewrite put_lookup.
  case_decide as Hj.
  - rewrite ensure_lookup, decide_True by done. intros [= <-]. set_solver.
  - rewrite ensure_lookup, decide_False by done. apply Hacc.
Qed.

Lemma invert_no_empty_set (filter : string) (re : option Regexp) (results : HostnameIndex) :
  no_empty_set (invert ord filter re results).
Proof.
  unfold invert. generalize (range_idx ord results). intros l.
  assert (∀ acc, no_empty_set acc →
            no_empty_set (foldl (invert_entry ord filter re) acc l)) as Hfold.
  { induction l as [|kv l IH]; intros acc Hacc; [done|].
    cbn [foldl]. by apply IH, invert_entry_no_empty_set. }
  apply Hfold, no_empty_set_empty.
Qed.

(** X14: in hosts mode, with a usable filter, there is exactly one line per
    IP that some hostname of the filtered index holds: no IP is on two
    lines, an IP whose hostnames are all filtered out has no line, and the
    hostname list of a line is never empty and names no hostname twice. *)
Theorem hosts_mode_lines (results : HostnameIndex) (fqdn : bool) (filter : string)
    (re : option Regexp) (tr : list event) :
  compile_filter filter tr = (Done re, tr) →
  let rws := rows ord results true filter re in
  printResults ord results true fqdn filter tr =
    (Done tt, tr ++ map (λ row, EvPrint (fst row +:+ " " +:+ Join (snd row) " ")) rws) ∧
  NoDup rws.*1 ∧
  (∀ ip, ip ∈ rws.*1 ↔ ∃ h, member (filtered filter re results) h ip) ∧
  (∀ ip hl, (ip, hl) ∈ rws → hl ≠ [] ∧ NoDup hl).
Proof.
  intros Hre rws. split; [|split; [|split]].
  - by rewrite (printResults_rows ord results true fqdn filter re tr Hre).
  - unfold rws, rows. rewrite <- list_fmap_compose.
    apply (range_idx_NoDup ord (invert ord filter re results)).
  - intros ip. rewrite list_elem_of_fmap. split.
    + intros ([ip' hl] & -> & (hs & Hhs & ->)%rows_hosts_elem). cbn [fst].
      destruct (set_choose_L hs) as [h Hh]; [by eapply invert_no_empty_set|].
      exists h. apply (member_invert ord filter re results ip' h). by exists hs.
    + intros (h & (hs & Hhs & _)%(member_invert ord)).
      exists (ip, range_set ord hs). split; [done|]. apply rows_hosts_elem. eauto.
  - intros ip hl (hs & Hhs & ->)%rows_hosts_elem. split.
    + intros Hnil. apply (invert_no_empty_set filter re results ip hs Hhs).
      apply set_eq. intros h. rewrite <- (range_set_elem ord), Hnil. set_solver.
    + rewrite (range_set_perm ord hs). apply NoDup_elements.
Qed.

Lemma member_ext (a b : HostnameIndex) :
  no_empty_set a → no_empty_set b →
  (∀ k x, member a k x ↔ member b k x) → a = b.
Proof.
  intros Ha Hb Hab. apply map_eq. intros k.
  destruct (a !! k) as [s|] eqn:Hs, (b !! k) as [t|] eqn:Ht; [| | |done].
  - f_equal. apply set_eq. intros x. split.
    + intros Hx. destruct (proj1 (Hab k x)) as (t' & Ht' & ?); [by exists s|].
      congruence.
    + intros Hx. destruct (proj2 (Hab k x)) as (s' & Hs' & ?); [by exists t|].
      congruence.
  - destruct (set_choose_L s) as [x Hx]; [by eapply Ha|].
    destruct (proj1 (Hab k x)) as (t' & Ht' & _); [by exists s|]. congruence.
  - destruct (set_choose_L t) as [x Hx]; [by eapply Hb|].
    destruct (proj2 (Hab k x)) as (s' & Hs' & _); [by exists t|]. congruence.
Qed.

Lemma filtered_no_filter (re : option Regexp) (m : HostnameIndex) : filtered "" re m = m.
Proof.
  apply map_eq. intros h. apply option_eq. intros ips.
  rewrite filtered_lookup. unfold selected. rewrite bool_decide_eq_true_2 by done.
  naive_solver.
Qed.

End MorePresenter.

Section FilterThenPrint.
Context `{L : Libraries} (ord : MapOrder).

(** X15: printing with a filter is printing the filtered index without a
    filter, whatever the orders in which the two runs range over their
    maps: in each mode both write one line per row, the two runs have the
    same row keys, each once, and under the same key the same names, up to
    their order. Nothing of a hostname that the filter drops reaches the
    output, its IPs included. *)
Theorem filter_then_print (ord' : MapOrder) (results : HostnameIndex) (hosts fqdn : bool)
    (filter : string) (re : option Regexp) (tr : list event) :
  compile_filter filter tr = (Done re, tr) →
  let rws := rows ord results hosts filter re in
  let rws' := rows ord' (filtered filter re results) hosts "" None in
  printResults ord results hosts fqdn filter tr =
    (Done tt, tr ++ map (λ row, EvPrint (format_row hosts fqdn row)) rws) ∧
  printResults ord' (filtered filter re results) hosts fqdn "" tr =
    (Done tt, tr ++ map (λ row, EvPrint (format_row hosts fqdn row)) rws') ∧
  NoDup rws.*1 ∧
  rws.*1 ≡ₚ rws'.*1 ∧
  (∀ key names names', (key, names) ∈ rws → (key, names') ∈ rws' → names ≡ₚ names').
Proof.
  intros Hre rws rws'.
  assert (compile_filter "" tr = (Done None, tr)) as Hnone by done.
  split; [by apply printResults_rows|]. split; [by apply printResults_rows|].
  unfold rws, rws'. clear rws rws'. destruct hosts.
  - assert (invert ord filter re results =
            invert ord' "" None (filtered filter re results)) as Hinv.
    { apply member_ext; [apply invert_no_empty_set..|]. intros ip h.
      by rewrite !member_invert, filtered_no_filter. }
    split; [|split].
    + unfold rows. rewrite <- list_fmap_compose.
      apply (range_idx_NoDup ord (invert ord filter re results)).
    + unfold rows. rewrite <- !list_fmap_compose, <- Hinv.
      apply fmap_Permutation.
      by rewrite (range_idx_perm ord), (range_idx_perm ord').
    + intros ip hl hl' (hs & Hhs & ->)%rows_hosts_elem (hs' & Hhs' & ->)%rows_hosts_elem.
      rewrite <- Hinv, Hhs in Hhs'. injection Hhs' as <-.
      by rewrite (range_set_perm ord), (range_set_perm ord').
  - split; [|split].
    + rewrite rows_default_keys. apply NoDup_fst_map_to_list.
    + rewrite !rows_default_keys. by rewrite filtered_no_filter.
    + intros h ipl ipl' (ips & Hips & ->)%rows_default_elem (ips' & Hips' & ->)%rows_default_elem.
      rewrite filtered_no_filter, Hips in Hips'. injection Hips' as <-.
      by rewrite (range_set_perm ord), (range_set_perm ord').
Qed.

End FilterThenPrint.

Module split_join.
Import strings strings_facts more_strings.

(** X16: the pieces into which [Action] and [searchASN] cut a flag value at
    the commas, joined by commas, give the value back: no piece is
    trimmed, dropped or merged, empty pieces included; there is always at
    least one piece and no piece holds a comma. *)
Theorem Join_Split (s : string) :
  Join (Split s ",") "," = s ∧
  Split s "," ≠ [] ∧
  Forall (λ piece, Contains piece "," = false) (Split s ",").
Proof.
  split; [|split].
  - induction s as [|a s IH]; [done|].
    rewrite Split_byte_cons. case_bool_decide as Ha.
    + rewrite Join_cons by apply Split_nonempty. rewrite IH. by subst a.
    + pose proof (Split_nonempty s "," 0) as Hne. fold (Split s ",") in Hne.
      destruct (Split s ",") as [|piece pieces]; [done|].
      destruct pieces as [|piece' pieces].
      * cbn in IH. by subst piece.
      * rewrite Join_cons in IH by done. rewrite Join_cons by done.
        by rewrite <- IH.
  - apply Split_nonempty.
  - apply Forall_forall. intros piece Hin. by eapply Split_byte_pieces.
Qed.

End split_join.

(** ** Runs in which every lookup fails *)

Section SilentFailure.
Context `{L : Libraries} (ord : MapOrder).
Import strings strings_facts.

Lemma range_idx_empty : range_idx ord ∅ = [].
Proof. apply Permutation_nil_r. rewrite range_idx_perm. by rewrite map_to_list_empty. Qed.

(** On the empty index [printResults] writes nothing, in any mode. *)
Lemma printResults_empty (hosts fqdn : bool) (filter : string) (re : option Regexp)
    (tr : list event) :
  compile_filter filter tr = (Done re, tr) →
  printResults ord ∅ hosts fqdn filter tr = (Done tt, tr).
Proof.
  intros Hre. rewrite (printResults_rows ord ∅ hosts fqdn filter re tr Hre).
  unfold rows, invert. rewrite !range_idx_empty. cbn [foldl].
  rewrite range_idx_empty. destruct hosts; cbn; by rewrite app_nil_r.
Qed.

Lemma cidr_loop_all_failed (cidrs : list string) (results : HostnameIndex) (tr : list event) :
  Forall (λ cidr, NewRequest_err (cidr_url cidr) = None ∧
                  ∀ tr1, lookup_failed tr1 (cidr_url cidr)) cidrs →
  cidr_loop ord cidrs results tr = (Done results, tr ++ map (λ cidr, EvGet (cidr_url cidr)) cidrs).
Proof.
  intros Hall. revert tr. induction Hall as [|cidr rest [Hreq Hfail] _ IH]; intros tr.
  - cbn. by rewrite app_nil_r.
  - cbn [cidr_loop map]. unfold bind. unfold cidr_url in Hreq.
    rewrite (searchCIDR_built cidr tr Hreq).
    assert (match client_Do tr (robtexURL +:+ Replace cidr "/" "-" (-1)) with
            | Some (status, body) =>
                if negb (status =? StatusOK) then ∅
                else match NewDocumentFromReader body with
                     | Some doc => foldl add_anchor ∅ (dns_anchors doc)
                     | None => ∅
                     end
            | None => (∅ : HostnameIndex)
            end = ∅) as ->.
    { destruct (Hfail tr) as [Hdo|(status & body & Hdo & [Hst|Hdoc])];
        unfold cidr_url in Hdo; rewrite Hdo; [done| |].
      - replace (status =? StatusOK) with false by (symmetry; by apply Z.eqb_neq). done.
      - destruct (negb (status =? StatusOK)); [done|]. by rewrite Hdoc. }
    rewrite merge_into_empty, IH. by rewrite <- app_assoc.
Qed.

(** X17: when the lookup of every CIDR of the list fails softly (transport
    error, status other than 200, page that does not parse) and the filter
    is usable, the run sends its GETs, writes no line at all, neither a
    report nor a warning, and ends with exit status 0: a run whose lookups
    all failed cannot be told from a run that found nothing. *)
Theorem all_lookups_failed_is_silent (c : Flags) (re : option Regexp) (tr : list event) :
  flag_cidr c ≠ "" →
  Forall (λ cidr, NewRequest_err (cidr_url cidr) = None ∧
                  ∀ tr1, lookup_failed tr1 (cidr_url cidr))
         (Split (flag_cidr c) ",") →
  (∀ tr1, compile_filter (flag_filter c) tr1 = (Done re, tr1)) →
  main ord c tr =
    (Done tt, tr ++ map (λ cidr, EvGet (cidr_url cidr)) (Split (flag_cidr c) ",")) ∧
  stdout (snd (main ord c tr)) = stdout tr ∧
  exit_status (fst (main ord c tr)) = 0.
Proof.
  intros Hc Hall Hre.
  assert (main ord c tr =
          (Done tt, tr ++ map (λ cidr, EvGet (cidr_url cidr)) (Split (flag_cidr c) ",")))
    as ->.
  { unfold main, Action. rewrite bool_decide_eq_false_2 by done. cbn [negb].
    unfold bind. rewrite (cidr_loop_all_failed _ ∅ tr Hall).
    by rewrite (printResults_empty _ _ _ re _ (Hre _)). }
  split; [done|]. split; [|done]. cbn [snd]. rewrite stdout_app.
  assert (stdout (map (λ cidr, EvGet (cidr_url cidr)) (Split (flag_cidr c) ",")) = []) as ->.
  { clear. induction (Split (flag_cidr c) ",") as [|x l IH]; [done|]. exact IH. }
  by rewrite app_nil_r.
Qed.

End SilentFailure.

(** ** These properties at work in the example world *)

Module MoreRuns.
Import Example.

(** X1 on the page of ["1.2.3.0/24"]. *)
Lemma searchCIDR_collects_anchors_witness :
  ∃ res, searchCIDR (L:=world) "1.2.3.0/24" [] =
           (Done res, [] ++ [EvGet (cidr_url "1.2.3.0/24")]) ∧
    (∀ h ip, member res h ip ↔
       ∃ a, a ∈ dns_anchors (Libraries:=world) cidr_1_2_3 ∧
            h = strings.Replace a.1 dns_lookup "" 1 ∧
            ip = strings.Replace a.2 ip_lookup "" 1) ∧
    (∀ h, is_Some (res !! h) ↔ ∃ ip, member res h ip).
Proof.
  apply (searchCIDR_collects_anchors (L:=world) "1.2.3.0/24" "cidr_1_2_3" cidr_1_2_3 []).
  - vm_compute. reflexivity.
  - vm_compute. reflexivity.
  - vm_compute. reflexivity.
Defined.

(** The same page, evaluated: a row without IP link gives the empty IP. *)
Lemma searchCIDR_page :
  searchCIDR (L:=world) "1.2.3.0/24" [] =
  (Done {[ "host1.example.com" := {[ "1.2.3.4" ]}; "mail.example.com" := {[ "" ]} ]},
   [EvGet "https://www.robtex.com/cidr/1.2.3.0-24"]).
Proof. vm_compute. reflexivity. Qed.

(** X4 on three ASNs in one call, the slice holding one prefix already:
    the prefix found again is kept twice, the ASN that answers 500 adds
    nothing. *)
Lemma searchASN_loop_extends_witness :
  fst (searchASN_loop (L:=world) ["AS64502"; "AS64500"; "AS64501"] ["1.2.3.0/24"] []) =
    Done (["1.2.3.0/24"] ++
          List.concat (map (asn_prefixes (L:=world) []) ["AS64502"; "AS64500"; "AS64501"])) ∧
  Forall (λ p, p ≠ "")
    (List.concat (map (asn_prefixes (L:=world) []) ["AS64502"; "AS64500"; "AS64501"])).
Proof.
  apply (searchASN_loop_extends (L:=world) ["AS64502"; "AS64500"; "AS64501"]
           ["1.2.3.0/24"] []).
  - repeat (apply Forall_cons; split; [vm_compute; reflexivity|]). by apply Forall_nil.
  - repeat (apply Forall_cons; split; [intros tr1 tr2; reflexivity|]). by apply Forall_nil.
Defined.

(** The same call, evaluated. *)
Lemma searchASN_loop_three :
  List.concat (map (asn_prefixes (L:=world) []) ["AS64502"; "AS64500"; "AS64501"]) =
    ["1.2.3.0/24"; "1.2.4.0/24"; "5.6.7.0/24"] ∧
  searchASN_loop (L:=world) ["AS64502"; "AS64500"; "AS64501"] ["1.2.3.0/24"] [] =
  (Done ["1.2.3.0/24"; "1.2.3.0/24"; "1.2.4.0/24"; "5.6.7.0/24"],
   [EvGet "https://bgp.he.net/AS64502"; EvGet "https://bgp.he.net/AS64500";
    EvPrint "1.2.3.0/24"; EvPrint "1.2.3.0/24"; EvPrint "1.2.4.0/24";
    EvGet "https://bgp.he.net/AS64501";
    EvPrint "1.2.3.0/24"; EvPrint "1.2.3.0/24"; EvPrint "1.2.4.0/24";
    EvPrint "5.6.7.0/24"]).
Proof. split; vm_compute; reflexivity. Qed.

(** X6 on two ASNs in one call. *)
Lemma searchASN_loop_prints_found_witness :
  ∃ new, snd (searchASN_loop (L:=world) ["AS64500"; "AS64501"] [] []) = [] ++ new ∧
    (∀ line, line ∈ stdout new →
       line ∈ [] ∨ ∃ asn, asn ∈ ["AS64500"; "AS64501"] ∧
                          line ∈ asn_prefixes (L:=world) [] asn) ∧
    (∀ asn p, asn ∈ ["AS64500"; "AS64501"] → p ∈ asn_prefixes (L:=world) [] asn →
              p ∈ stdout new).
Proof.
  apply (searchASN_loop_prints_found (L:=world) ["AS64500"; "AS64501"] [] []).
  - repeat (apply Forall_cons; split; [vm_compute; reflexivity|]). by apply Forall_nil.
  - repeat (apply Forall_cons; split; [intros tr1 tr2; reflexivity|]). by apply Forall_nil.
Defined.

(** X7 on a list of three pieces, the second one empty. *)
Lemma cidr_mode_lookups_witness :
  requests (snd (main (L:=world) canonical_order three_pieces [])) =
  requests [] ++ map cidr_url (strings.Split (flag_cidr three_pieces) ",").
Proof.
  apply (cidr_mode_lookups (L:=world) canonical_order three_pieces []).
  - discriminate.
  - change (strings.Split (flag_cidr three_pieces) ",")
      with ["1.2.3.0/24"; ""; "5.6.7.0/24"].
    repeat (apply Forall_cons; split; [vm_compute; reflexivity|]). by apply Forall_nil.
Defined.

(** The same run, evaluated: the empty piece is looked up too. *)
Lemma three_pieces_run :
  run three_pieces =
  (Done tt,
   [EvGet "https://www.robtex.com/cidr/1.2.3.0-24";
    EvGet "https://www.robtex.com/cidr/";
    EvGet "https://www.robtex.com/cidr/5.6.7.0-24";
    EvPrint "mail.example.com"; EvPrint "host1.example.com"]).
Proof. vm_compute. reflexivity. Qed.

(** X8 on the same list, in fqdn mode and in hosts mode with a filter. *)
Lemma presentation_flags_witness :
  requests (snd (main (L:=world) canonical_order three_pieces [])) =
  requests (snd (main (L:=world) canonical_order three_pieces_hosts [])).
Proof.
  apply (presentation_flags_do_not_change_lookups (L:=world) canonical_order
           three_pieces three_pieces_hosts []); reflexivity.
Defined.

(** X9 in ASN mode with the pattern ["("]: the two progress lines are
    written, the report is not. *)
Lemma invalid_filter_after_lookups_witness :
  main (L:=world) canonical_order asn_bad_filter [] =
    (Fatal ("Invalid regex pattern: " +:+ "error parsing regexp: missing closing ): `(`"),
     [EvGet "https://bgp.he.net/AS64500"; EvPrint "1.2.3.0/24"; EvPrint "1.2.4.0/24";
      EvGet "https://www.robtex.com/cidr/1.2.3.0-24";
      EvGet "https://www.robtex.com/cidr/1.2.4.0-24";
      EvGet "https://bgp.he.net/AS64502"]) ∧
  stdout [EvGet "https://bgp.he.net/AS64500"; EvPrint "1.2.3.0/24"; EvPrint "1.2.4.0/24";
          EvGet "https://www.robtex.com/cidr/1.2.3.0-24";
          EvGet "https://www.robtex.com/cidr/1.2.4.0-24";
          EvGet "https://bgp.he.net/AS64502"] =
    stdout [] ++ asn_loop_prefixes (L:=world) canonical_order
                   (strings.Split (flag_asn asn_bad_filter) ",") ∅ [].
Proof.
  refine (proj2 (invalid_filter_after_lookups (L:=world) canonical_order asn_bad_filter
                   "error parsing regexp: missing closing ): `(`"
                   asn_bad_filter_index [] _ _ _) _ _ _).
  - discriminate.
  - reflexivity.
  - reflexivity.
  - discriminate.
  - vm_compute. reflexivity.
Defined.

(** X10 on a list whose second CIDR holds a tab. *)
Lemma refused_cidr_ends_run_witness :
  ∃ tr', main (L:=world) canonical_order refused_second [] =
           (Fatal ("Failed to create HTTP request: " +:+
                   "net/url: invalid control character in URL"), tr') ∧
         requests tr' = requests [] ++ map cidr_url ["1.2.3.0/24"] ∧
         stdout tr' = stdout [].
Proof.
  apply (refused_cidr_ends_run (L:=world) canonical_order refused_second
           ["1.2.3.0/24"] ["5.6.7.0/24"] ("1.2.4.0/24" +:+ tab)).
  - discriminate.
  - vm_compute. reflexivity.
  - apply Forall_cons. split; [vm_compute; reflexivity | by apply Forall_nil].
  - vm_compute. reflexivity.
Defined.

(** X13 on the index of the specification. *)
Lemma fqdn_mode_lines_witness :
  ∃ lines, printResults (L:=world) canonical_order two_hosts false true "host" [] =
             (Done tt, [] ++ map EvPrint lines) ∧
           lines ≡ₚ (map_to_list (filtered (L:=world) "host" (Some "host") two_hosts)).*1 ∧
           NoDup lines ∧
           length lines = size (filtered (L:=world) "host" (Some "host") two_hosts).
Proof.
  apply (fqdn_mode_lines (L:=world) canonical_order two_hosts "host" (Some "host") []).
  reflexivity.
Defined.

(** X14 on an index where two hostnames share an IP. *)
Lemma hosts_mode_lines_witness :
  NoDup (rows (L:=world) canonical_order shared_ip true "example.com" (Some "example.com")).*1.
Proof.
  refine (proj1 (proj2 (hosts_mode_lines (L:=world) canonical_order shared_ip false
                          "example.com" (Some "example.com") [] _))).
  reflexivity.
Defined.

(** The same index, evaluated: one line per IP, the shared IP with both
    hostnames, and no line for the IP of the hostname filtered out. *)
Lemma shared_ip_hosts :
  printResults (L:=world) canonical_order shared_ip true false "example.com" [] =
  (Done tt, [EvPrint "1.2.3.5 mail.example.com";
             EvPrint "1.2.3.4 www.example.com mail.example.com"]).
Proof. vm_compute. reflexivity. Qed.

(** X15 on the same index and filter, in hosts mode, the second run
    ranging over its maps the other way round. *)
Lemma filter_then_print_witness :
  printResults (L:=world) canonical_order shared_ip true false "example.com" [] =
    (Done tt, [] ++ map (λ row, EvPrint (format_row true false row))
                        (rows (L:=world) canonical_order shared_ip true "example.com"
                              (Some "example.com"))) ∧
  printResults (L:=world) reversed_order
    (filtered (L:=world) "example.com" (Some "example.com") shared_ip) true false "" [] =
    (Done tt, [] ++ map (λ row, EvPrint (format_row true false row))
                        (rows (L:=world) reversed_order
                              (filtered (L:=world) "example.com" (Some "example.com") shared_ip)
                              true "" None)) ∧
  NoDup (rows (L:=world) canonical_order shared_ip true "example.com" (Some "example.com")).*1 ∧
  (rows (L:=world) canonical_order shared_ip true "example.com" (Some "example.com")).*1 ≡ₚ
  (rows (L:=world) reversed_order
        (filtered (L:=world) "example.com" (Some "example.com") shared_ip) true "" None).*1 ∧
  (∀ key names names',
     (key, names) ∈ rows (L:=world) canonical_order shared_ip true "example.com"
                         (Some "example.com") →
     (key, names') ∈ rows (L:=world) reversed_order
                          (filtered (L:=world) "example.com" (Some "example.com") shared_ip)
                          true "" None →
     names ≡ₚ names').
Proof.
  apply (filter_then_print (L:=world) canonical_order reversed_order shared_ip true false
           "example.com" (Some "example.com") []).
  reflexivity.
Defined.

(** The second run, evaluated: the lines of [shared_ip_hosts] in another
    order, the hostnames of the shared IP in another order. *)
Lemma shared_ip_hosts_reversed :
  printResults (L:=world) reversed_order
    (filtered (L:=world) "example.com" (Some "example.com") shared_ip) true false "" [] =
  (Done tt, [EvPrint "1.2.3.4 mail.example.com www.example.com";
             EvPrint "1.2.3.5 mail.example.com"]).
Proof. vm_compute. reflexivity. Qed.

(** X17 on two CIDRs that the example network does not know (transport
    error) or answers with 404. *)
Lemma all_lookups_failed_is_silent_witness :
  main (L:=world) canonical_order all_fail [] =
    (Done tt, [] ++ map (λ cidr, EvGet (cidr_url cidr))
                        (strings.Split (flag_cidr all_fail) ",")) ∧
  stdout (snd (main (L:=world) canonical_order all_fail [])) = stdout [] ∧
  exit_status (fst (main (L:=world) canonical_order all_fail [])) = 0.
Proof.
  apply (all_lookups_failed_is_silent (L:=world) canonical_order all_fail None []).
  - discriminate.
  - change (strings.Split (flag_cidr all_fail) ",") with ["5.6.7.0/24"; "9.9.9.0/24"].
    apply Forall_cons. split.
    { split; [vm_compute; reflexivity|]. intros tr1. right. exists 404, "".
      split; [vm_compute; reflexivity|]. left. discriminate. }
    apply Forall_cons. split; [|by apply Forall_nil].
    split; [vm_compute; reflexivity|]. intros tr1. left. vm_compute. reflexivity.
  - intros tr1. reflexivity.
Defined.

End MoreRuns.
